(** * The draw control of react-map-gl: feature model and gesture handlers

    A shallow embedding of [feature.js] (class [Feature]) and of the two
    [DrawControl] classes of [draw-control/draw-control.js], followed by the
    properties of them that are stated in the specification. *)

From Stdlib Require Import ZArith QArith Bool.
From stdpp Require Import base option list strings gmap.

Local Open Scope Z_scope.

(** ** JavaScript values *)

Module JS.

(** A JavaScript number.  Finite doubles are read as rationals: rounding
    and the infinities are left out, [NaN] is kept because the code
    produces it from [undefined]. *)
Inductive number : Type :=
| NaN
| Num (q : Q).

(** [ToNumber] of the result of a property read; [None] is [undefined]. *)
Definition ToNumber (v : option number) : number :=
  match v with
  | Some n => n
  | None => NaN
  end.

(** [a + b], [a / b] and [a < b] on numbers. *)
Definition add (a b : number) : number :=
  match a, b with
  | Num x, Num y => Num (x + y)
  | _, _ => NaN
  end.

Definition div (a b : number) : number :=
  match a, b with
  | Num x, Num y => if Qeq_bool y 0 then NaN else Num (x / y)
  | _, _ => NaN
  end.

Definition lt (a b : number) : bool :=
  match a, b with
  | Num x, Num y => negb (Qle_bool y x)
  | _, _ => false
  end.

Definition of_Z (z : Z) : number := Num (inject_Z z).

(** The primitive values that ids and property values range over. *)
Inductive value : Type :=
| undefined
| null
| boolean (b : bool)
| numeric (n : number)
| text (s : string).

(** [a === b]. *)
Definition strict_eq (a b : value) : bool :=
  match a, b with
  | undefined, undefined => true
  | null, null => true
  | boolean x, boolean y => Bool.eqb x y
  | numeric (Num x), numeric (Num y) => Qeq_bool x y
  | text x, text y => String.eqb x y
  | _, _ => false
  end.

(** [ToBoolean]. *)
Definition truthy (v : value) : bool :=
  match v with
  | undefined | null => false
  | boolean b => b
  | numeric NaN => false
  | numeric (Num q) => negb (Qeq_bool q 0)
  | text s => negb (String.eqb s "")
  end.

(** The outcome of a call that may raise a [TypeError]. *)
Inductive completion (A : Type) : Type :=
| Returns (a : A)
| Throws.
Arguments Returns {A} a.
Arguments Throws {A}.

(** *** Arrays *)

Section Arrays.
Context {A : Type}.

(** [l[i]]; [None] is [undefined]. *)
Definition get (l : list A) (i : Z) : option A :=
  if i <? 0 then None else l !! Z.to_nat i.

(** The clamping of a relative index that [splice] and [slice] share. *)
Definition relative (len i : Z) : Z :=
  if i <? 0 then Z.max (len + i) 0 else Z.min i len.

(** [l.splice(start, deleteCount, ...items)], the array afterwards. *)
Definition splice (l : list A) (start deleteCount : Z) (items : list A)
  : list A :=
  let len := Z.of_nat (length l) in
  let actualStart := relative len start in
  let actualDeleteCount := Z.min (Z.max deleteCount 0) (len - actualStart) in
  take (Z.to_nat actualStart) l ++ items
    ++ drop (Z.to_nat (actualStart + actualDeleteCount)) l.

(** [l.slice(start, stop)]. *)
Definition slice (l : list A) (start stop : Z) : list A :=
  let len := Z.of_nat (length l) in
  let k := relative len start in
  let final := relative len stop in
  take (Z.to_nat (final - k)) (drop (Z.to_nat k) l).

(** [l.find(p)], as the index of the element found: the elements are
    objects, and the caller goes on to mutate the one it gets. *)
Fixpoint findIndex (p : A → bool) (l : list A) : option nat :=
  match l with
  | [] => None
  | a :: l' => if p a then Some O else S <$> findIndex p l'
  end.
End Arrays.

End JS.

(** ** GeoJSON records *)

Module GeoJSON.
Import JS.

(** An element of a [points] or [coordinates] array: a position array
    [[lng, lat]], an object with named numeric fields such as [{x, y}], or
    [undefined]. *)
Inductive position : Type :=
| Undefined
| Arr (elems : list number)
| Obj (fields : gmap string number).

(** [p.name] for a name that is not an index. *)
Definition prop (p : position) (name : string) : option number :=
  match p with
  | Undefined => None
  | Arr elems =>
      if String.eqb name "length" then Some (of_Z (Z.of_nat (length elems)))
      else None
  | Obj fields => fields !! name
  end.

(** [ToBoolean] of an array element. *)
Definition defined (p : position) : bool :=
  match p with
  | Undefined => false
  | Arr _ | Obj _ => true
  end.

(** [ToNumber] of an array of positions, as [points < 3] computes it: the
    array is joined with commas into a string, which is read as a number.
    Two elements or more leave a comma in the string, an object leaves
    [[object Object]]; neither is a numeric literal. *)
Definition position_to_number (p : position) : number :=
  match p with
  | Undefined => Num 0
  | Arr [] => Num 0
  | Arr [x] => x
  | Arr (_ :: _ :: _) => NaN
  | Obj _ => NaN
  end.

Definition array_to_number (points : list position) : number :=
  match points with
  | [] => Num 0
  | [p] => position_to_number p
  | _ :: _ :: _ => NaN
  end.

(** A property bag.  The four keys that [Feature] names are held apart,
    [None] for a key that is absent; [rest] holds every other key. *)
Record Object : Type := {
  key_id : option value;
  key_type : option value;
  key_points : option (list position);
  key_isClosed : option (option bool);
  rest : gmap string value
}.

(** An object that has none of the four keys. *)
Definition others (m : gmap string value) : Object :=
  {| key_id := None; key_type := None; key_points := None;
     key_isClosed := None; rest := m |}.

(** [{...o, ...over}]: the keys of [over] win. *)
Definition spread (o over : Object) : Object :=
  {| key_id := key_id over ∪ key_id o;
     key_type := key_type over ∪ key_type o;
     key_points := key_points over ∪ key_points o;
     key_isClosed := key_isClosed over ∪ key_isClosed o;
     rest := rest over ∪ rest o |}.

(** [geometry]: the [type] tag with the [coordinates] it goes with.
    [Other] is for a tag that is none of the three. *)
Inductive Geometry : Type :=
| Point (coordinates : position)
| LineString (coordinates : list position)
| Polygon (coordinates : list (list position))
| Other (type : string).

Record feature : Type := {
  geometry : Geometry;
  properties : Object
}.

(** The helpers of [@turf/helpers] wrap their arguments in a record; the
    checks that package makes on the coordinates are its own. *)
Definition point (coordinates : position) (properties : Object) : feature :=
  {| geometry := Point coordinates; properties := properties |}.

Definition lineString (coordinates : list position) (properties : Object)
  : feature :=
  {| geometry := LineString coordinates; properties := properties |}.

Definition polygon (coordinates : list (list position)) (properties : Object)
  : feature :=
  {| geometry := Polygon coordinates; properties := properties |}.

(** What a helper checks before it builds the record is not in this
    repository, so it is a parameter: [accepts] tells of the record that
    the arguments make whether the helper takes them.  A helper that takes
    its arguments returns the record; one that does not raises. *)
Record Helpers : Type := {
  accepts : feature → bool
}.

Definition checked (helpers : Helpers) (built : feature)
  : completion feature :=
  if accepts helpers built then Returns built else Throws.

End GeoJSON.

(** ** [class Feature] *)

Module Feature.
Import JS GeoJSON.

(** [isClosed] is [undefined] ([None]) until something sets it.
    [otherProps] is what the rest pattern of the constructor leaves, so it
    holds none of [id], [type], [points], [isClosed]. *)
Record t : Type := {
  id : value;
  type : value;
  points : list position;
  isClosed : option bool;
  otherProps : gmap string value
}.

(** [constructor({id, type, points = [], isClosed, ...otherProps})]. *)
Definition new (args : Object) : t :=
  {| id := default undefined (key_id args);
     type := default undefined (key_type args);
     points := default [] (key_points args);
     isClosed := default None (key_isClosed args);
     otherProps := rest args |}.

(** The parameter is a record that has a [geometry] and [properties]; on
    one that lacks either the destructuring of the parameter raises before
    anything else is done, and such a record is none of this type. *)
Definition fromFeature (feature : GeoJSON.feature) : completion (option t) :=
  let id := default undefined (key_id (properties feature)) in
  let otherProps :=
    {| key_id := None;
       key_type := key_type (properties feature);
       key_points := key_points (properties feature);
       key_isClosed := key_isClosed (properties feature);
       rest := rest (properties feature) |} in
  match geometry feature with
  | Point coordinates =>
      Returns (Some (new (spread
        {| key_id := Some id; key_type := Some (text "Point");
           key_points := Some [coordinates];
           key_isClosed := None; rest := ∅ |} otherProps)))
  | LineString coordinates =>
      Returns (Some (new (spread
        {| key_id := Some id; key_type := Some (text "LineString");
           key_points := Some coordinates;
           key_isClosed := None; rest := ∅ |} otherProps)))
  | Polygon coordinates =>
      match get coordinates 0 with
      | None => Throws
      | Some ring =>
          Returns (Some (new (spread
            {| key_id := Some id; key_type := Some (text "Polygon");
               key_points := Some (slice ring 0 (-1));
               key_isClosed := Some (Some true); rest := ∅ |} otherProps)))
      end
  | Other _ => Returns None
  end.

(** The methods mutate [this]: each returns its result with the object
    afterwards. *)

Definition addPoint (pt : position) (this : t) : bool * t :=
  (true,
   {| id := id this; type := type this; points := points this ++ [pt];
      isClosed := isClosed this; otherProps := otherProps this |}).

Definition removePoint (index : Z) (this : t) : bool * t :=
  if (0 <=? index) && (index <? Z.of_nat (length (points this))) then
    let points' := splice (points this) index 1 [] in
    (true,
     {| id := id this; type := type this; points := points';
        isClosed := if Z.of_nat (length points') <? 3 then Some false
                    else isClosed this;
        otherProps := otherProps this |})
  else (false, this).

Definition replacePoint (index : Z) (pt : position) (this : t) : bool * t :=
  if (0 <=? index) && (index <? Z.of_nat (length (points this))) then
    (true,
     {| id := id this; type := type this;
        points := <[Z.to_nat index := pt]> (points this);
        isClosed := isClosed this; otherProps := otherProps this |})
  else (false, this).

(** [[(p.x + prevP.x) / 2, (p.y + prevP.y) / 2]]. *)
Definition midpoint (p prevP : position) : position :=
  Arr [ div (add (ToNumber (prop p "x")) (ToNumber (prop prevP "x")))
            (of_Z 2);
        div (add (ToNumber (prop p "y")) (ToNumber (prop prevP "y")))
            (of_Z 2) ].

Definition insertPoint (index : Z) (this : t) : bool * t :=
  let p := default Undefined (get (points this) index) in
  let prevP :=
    default Undefined
      (get (points this)
         (if index =? 0 then Z.of_nat (length (points this)) - 1
          else index - 1)) in
  if defined p && defined prevP then
    (true,
     {| id := id this; type := type this;
        points := splice (points this) index 0 [midpoint p prevP];
        isClosed := isClosed this; otherProps := otherProps this |})
  else (false, this).

Definition closePath (this : t) : bool * t :=
  if 3 <=? Z.of_nat (length (points this)) then
    (true,
     {| id := id this; type := type this; points := points this;
        isClosed := Some true; otherProps := otherProps this |})
  else (false, this).

Definition toFeature (this : t) : GeoJSON.feature :=
  if Z.of_nat (length (points this)) <? 2 then
    point (default Undefined (get (points this) 0))
      (spread
         {| key_id := Some (id this); key_type := None; key_points := None;
            key_isClosed := None; rest := ∅ |}
         (others (otherProps this)))
  else if lt (array_to_number (points this)) (of_Z 3)
          || negb (default false (isClosed this)) then
    lineString (points this)
      (spread
         {| key_id := Some (id this); key_type := None; key_points := None;
            key_isClosed := None; rest := ∅ |}
         (others (otherProps this)))
  else
    polygon [points this ++ [default Undefined (get (points this) 0)]]
      (spread
         {| key_id := Some (id this); key_type := None; key_points := None;
            key_isClosed := Some (isClosed this); rest := ∅ |}
         (others (otherProps this))).

(** [toFeature] with helpers that check what they are given. *)
Definition toFeature_with (helpers : Helpers) (this : t)
  : completion GeoJSON.feature :=
  checked helpers (toFeature this).

End Feature.

(** ** What the two [DrawControl] classes share *)

Module Component.
Import JS GeoJSON.

(** The [mode] prop: the strings that one or the other class names in its
    [MODES]. *)
Inductive MODES : Type :=
| READ_ONLY
| SELECT
| SELECT_FEATURE
| EDIT_VERTEX
| DRAW_POINT
| DRAW_PATH
| DRAW_POLYGON.

#[export] Instance MODES_eq_dec : EqDecision MODES.
Proof. solve_decision. Defined.

Definition MODE_TO_TYPE (mode : MODES) : value :=
  match mode with
  | DRAW_POINT => text "Point"
  | DRAW_PATH => text "LineString"
  | DRAW_POLYGON => text "Polygon"
  | _ => undefined
  end.

Inductive OPERATIONS : Type :=
| SET
| INTERSECT.

#[export] Instance OPERATIONS_eq_dec : EqDecision OPERATIONS.
Proof. solve_decision. Defined.

Record Props : Type := {
  mode : MODES
}.

(** [this._context.viewport]: screen pixels to [[lng, lat]]. *)
Record Viewport : Type := {
  unproject : Z * Z → number * number
}.

(** [this.state].  [startDragPos] is [{}] until the first press.  [features]
    is an array of [Feature] objects: [_renderFeatures] reads every element
    of it on each render, so the control that receives an event holds no
    [null] there. *)
Record State : Type := {
  features : list Feature.t;
  selectedId : value;
  draggingVertex : Z;
  startDragPos : option (Z * Z);
  isDragging : bool;
  didDrag : bool
}.

(** The calls made to the callbacks of the host. *)
Inductive Call : Type :=
| onUpdate (features : list GeoJSON.feature)
| onSelect (id : value).

(** A handler reads and writes [this.state], calls the host, and may raise.
    [setState] is read as taking effect at once: no handler reads back a
    field it has set, so batching the updates gives the same state.
    [evt.stopPropagation()] acts on the event and not on the control: it
    is no part of a handler here, and is accounted for where an event
    reaches two handlers ([DrawControl.clickFeature]). *)
Definition M (A : Type) : Type :=
  State → completion (A * State * list Call).

#[export] Instance M_ret : MRet M := λ A a s, Returns (a, s, []).

#[export] Instance M_bind : MBind M := λ A B k m s,
  match m s with
  | Returns (a, s1, calls1) =>
      match k a s1 with
      | Returns (b, s2, calls2) => Returns (b, s2, calls1 ++ calls2)
      | Throws => Throws
      end
  | Throws => Throws
  end.

Definition getState : M State := λ s, Returns (s, s, []).
Definition setState (f : State → State) : M unit := λ s, Returns (tt, f s, []).
Definition call (c : Call) : M unit := λ s, Returns (tt, s, [c]).
Definition throw {A} : M A := λ _, Throws.

(** A reference to a [Feature] object: one held in [this.state.features],
    by its index there, or one that no array holds yet. *)
Inductive ref : Type :=
| held (i : nat)
| fresh (f : Feature.t).

Definition deref (r : ref) : M Feature.t :=
  λ s, match r with
       | held i =>
           match features s !! i with
           | Some f => Returns (f, s, [])
           | None => Throws
           end
       | fresh f => Returns (f, s, [])
       end.

(** A method call on the object: one held in the state changes there, and
    no [setState] is involved. *)
Definition invoke {A} (r : ref) (method : Feature.t → A * Feature.t)
  : M (A * ref) :=
  λ s, match r with
       | held i =>
           match features s !! i with
           | Some f =>
               Returns ((fst (method f), held i),
                        {| features := <[i := snd (method f)]> (features s);
                           selectedId := selectedId s;
                           draggingVertex := draggingVertex s;
                           startDragPos := startDragPos s;
                           isDragging := isDragging s;
                           didDrag := didDrag s |}, [])
           | None => Throws
           end
       | fresh f => Returns ((fst (method f), fresh (snd (method f))), s, [])
       end.

(** The members below read the same in both classes. *)

Definition _update (features : list Feature.t) : M unit :=
  call (onUpdate (Feature.toFeature <$> features)).

(** [features.map(f => f.toFeature())] with helpers that check what they
    are given: the first export that is refused raises. *)
Fixpoint exports (helpers : Helpers) (features : list Feature.t)
  : completion (list GeoJSON.feature) :=
  match features with
  | [] => Returns []
  | f :: features' =>
      match Feature.toFeature_with helpers f with
      | Returns g =>
          match exports helpers features' with
          | Returns gs => Returns (g :: gs)
          | Throws => Throws
          end
      | Throws => Throws
      end
  end.


Definition _getSelectedFeature : M (option nat) :=
  s ← getState;
  mret (findIndex (λ f, strict_eq (Feature.id f) (selectedId s)) (features s)).

(** [feature] is an object, so [feature || this._getSelectedFeature()] is
    [feature].  The copy of [this.state.features] holds the same objects;
    [isNew] is false for every feature that [find] has reached by its id. *)
Definition _addPoint (props : Props) (viewport : Viewport)
  (x y : Z) (feature : ref) : M unit :=
  let lngLat := unproject viewport (x, y) in
  r ← invoke feature (Feature.addPoint (Arr [fst lngLat; snd lngLat]));
  f ← deref (snd r);
  s ← getState;
  let isNew :=
    negb (bool_decide
            (is_Some (findIndex (λ g, strict_eq (Feature.id g) (Feature.id f))
                        (features s)))) in
  let features' := if isNew then features s ++ [f] else features s in
  if bool_decide (mode props = DRAW_POINT)
     || (bool_decide (mode props = DRAW_PATH)
         && (2 <=? Z.of_nat (length (Feature.points f)))) then
    _update features';;
    call (onSelect (Feature.id f))
  else
    setState (λ s,
      {| features := features';
         selectedId := Feature.id f;
         draggingVertex := draggingVertex s;
         startDragPos := startDragPos s;
         isDragging := isDragging s;
         didDrag := didDrag s |}).

Definition _closePath : M unit :=
  selectedFeature ← _getSelectedFeature;
  match selectedFeature with
  | None => throw
  | Some i =>
      invoke (held i) Feature.closePath;;
      s ← getState;
      _update (features s);;
      f ← deref (held i);
      call (onSelect (Feature.id f))
  end.

(** [now] is what [Date.now()] returns during the call. *)
Definition _addFeature (props : Props) (viewport : Viewport)
  (type : value) (point : Z * Z) (now : Z) : M unit :=
  let feature :=
    Feature.new
      {| key_id := Some (numeric (of_Z now)); key_type := Some type;
         key_points := None; key_isClosed := None;
         rest := {[ "renderType" := type ]} |} in
  _addPoint props viewport (fst point) (snd point) (fresh feature).

Definition _onMouseMove (viewport : Viewport) (x y : Z) : M unit :=
  s ← getState;
  (if isDragging s && negb (didDrag s) then
     match startDragPos s with
     | Some (x0, y0) =>
         let dx := x - x0 in
         let dy := y - y0 in
         if 5 <? dx * dx + dy * dy then
           setState (λ s,
             {| features := features s; selectedId := selectedId s;
                draggingVertex := draggingVertex s;
                startDragPos := startDragPos s;
                isDragging := isDragging s; didDrag := true |})
         else mret tt
     | None => mret tt
     end
   else mret tt);;
  if isDragging s && (0 <=? draggingVertex s) then
    let lngLat := unproject viewport (x, y) in
    selectedFeature ← _getSelectedFeature;
    match selectedFeature with
    | Some i =>
        invoke (held i)
          (Feature.replacePoint (draggingVertex s)
             (Arr [fst lngLat; snd lngLat]));;
        mret tt
    | None => mret tt
    end
  else mret tt.

Definition _onClickVertex (index : Z) (operation : OPERATIONS) : M unit :=
  if bool_decide (operation = INTERSECT) then _closePath else mret tt.

(** The click on the canvas, after the checks each class makes first. *)
Definition click (props : Props) (viewport : Viewport)
  (x y : Z) (now : Z) : M unit :=
  selectedFeature ← _getSelectedFeature;
  match mode props with
  | DRAW_POINT =>
      _addFeature props viewport (MODE_TO_TYPE (mode props)) (x, y) now
  | DRAW_PATH | DRAW_POLYGON =>
      match selectedFeature with
      | Some i =>
          f ← deref (held i);
          if default false (Feature.isClosed f) then call (onSelect null)
          else _addPoint props viewport x y (held i)
      | None =>
          _addFeature props viewport (MODE_TO_TYPE (mode props)) (x, y) now
      end
  | _ => mret tt
  end.

(** [features.map(f => Feature.fromFeature(f))], as the constructor and
    [componentWillReceiveProps] hydrate the [features] prop.  A record of a
    kind that [fromFeature] does not know leaves [null] in the array. *)
Fixpoint hydrate (features : list GeoJSON.feature)
  : completion (list (option Feature.t)) :=
  match features with
  | [] => Returns []
  | f :: features' =>
      match Feature.fromFeature f with
      | Returns o =>
          match hydrate features' with
          | Returns os => Returns (o :: os)
          | Throws => Throws
          end
      | Throws => Throws
      end
  end.

End Component.

(** ** The first [DrawControl]: React handlers on the container

    Lines 1 to 486 of [draw-control.js]. *)

Module DrawControl.
Import JS GeoJSON.
Export Component.

Record MouseEvent : Type := {
  clientX : Z;
  clientY : Z
}.

Definition _getEventPosition (evt : MouseEvent) : Z * Z :=
  (clientX evt, clientY evt).

Definition _onClick (props : Props) (viewport : Viewport)
  (evt : MouseEvent) (now : Z) : M unit :=
  let pos := _getEventPosition evt in
  click props viewport (fst pos) (snd pos) now.

Definition _onBeforeClick (props : Props) (viewport : Viewport)
  (evt : MouseEvent) (now : Z) : M unit :=
  s ← getState;
  if negb (didDrag s) then _onClick props viewport evt now else mret tt.

Definition _onMouseUp (evt : MouseEvent) : M unit :=
  setState (λ s,
    {| features := features s; selectedId := selectedId s;
       draggingVertex := draggingVertex s; startDragPos := startDragPos s;
       isDragging := false; didDrag := didDrag s |});;
  s ← getState;
  if 0 <=? draggingVertex s then
    setState (λ s,
      {| features := features s; selectedId := selectedId s;
         draggingVertex := -1; startDragPos := startDragPos s;
         isDragging := isDragging s; didDrag := didDrag s |});;
    _update (features s)
  else mret tt.

Definition _onMouseDown (evt : MouseEvent) : M unit :=
  let pos := _getEventPosition evt in
  setState (λ s,
    {| features := features s; selectedId := selectedId s;
       draggingVertex := draggingVertex s; startDragPos := Some pos;
       isDragging := true; didDrag := false |}).

Definition _onMouseMove (viewport : Viewport) (evt : MouseEvent) : M unit :=
  let pos := _getEventPosition evt in
  Component._onMouseMove viewport (fst pos) (snd pos).

Definition _onDragVertex (evt : MouseEvent) (index : Z) : M unit :=
  setState (λ s,
    {| features := features s; selectedId := selectedId s;
       draggingVertex := index; startDragPos := startDragPos s;
       isDragging := isDragging s; didDrag := didDrag s |});;
  _onMouseDown evt.

Definition _onClickFeature (props : Props) (evt : MouseEvent)
  (feature : Feature.t) : M unit :=
  s ← getState;
  if bool_decide (mode props = SELECT) || negb (truthy (selectedId s)) then
    call (onSelect (Feature.id feature))
  else mret tt.

(** A handler with the arguments that [_render] and its helpers bind to it
    when they pass it to [_onEvent]. *)
Inductive Handler : Type :=
| onBeforeClick (evt : MouseEvent) (now : Z)
| onMouseMove (evt : MouseEvent)
| onMouseDown (evt : MouseEvent)
| onMouseUp (evt : MouseEvent)
| onDragVertex (evt : MouseEvent) (index : Z)
| onClickVertex (evt : MouseEvent) (index : Z) (operation : OPERATIONS)
| onClickFeature (evt : MouseEvent) (feature : Feature.t).

Definition is_onClickFeature (handler : Handler) : bool :=
  match handler with
  | onClickFeature _ _ => true
  | _ => false
  end.

Definition handle (props : Props) (viewport : Viewport) (handler : Handler)
  : M unit :=
  match handler with
  | onBeforeClick evt now => _onBeforeClick props viewport evt now
  | onMouseMove evt => _onMouseMove viewport evt
  | onMouseDown evt => _onMouseDown evt
  | onMouseUp evt => _onMouseUp evt
  | onDragVertex evt index => _onDragVertex evt index
  | onClickVertex evt index operation => _onClickVertex index operation
  | onClickFeature evt feature => _onClickFeature props evt feature
  end.

Definition _onEvent (props : Props) (viewport : Viewport) (handler : Handler)
  : M unit :=
  if bool_decide (mode props = READ_ONLY)
     || (bool_decide (mode props = SELECT) && negb (is_onClickFeature handler))
  then mret tt
  else handle props viewport handler.

(** The events one after the other; the calls are those of all of them. *)
Fixpoint run (props : Props) (viewport : Viewport) (events : list Handler)
  : M unit :=
  match events with
  | [] => mret tt
  | e :: events' => _onEvent props viewport e;; run props viewport events'
  end.

(** A click on the element of a feature, as the document delivers it.
    The [onClick] that [_renderFeature] binds passes [_onClickFeature] to
    [_onEvent]; the event then reaches the [onClick] of the container, which
    passes [_onBeforeClick], unless [evt.stopPropagation()] has been called:
    by [_onEvent] when it ignores the handler, or by [_onClickFeature] when
    it selects. *)
Definition clickFeature (props : Props) (viewport : Viewport)
  (evt : MouseEvent) (feature : Feature.t) (now : Z) : M unit :=
  s ← getState;
  _onEvent props viewport (onClickFeature evt feature);;
  if bool_decide (mode props = READ_ONLY)
     || bool_decide (mode props = SELECT)
     || negb (truthy (selectedId s))
  then mret tt
  else _onEvent props viewport (onBeforeClick evt now).

(** What [_renderCurrent] binds to the vertices of the selected feature,
    one entry a vertex: the handler [_onEvent] gets on a press on the
    vertex group, and the one it gets on a click on the vertex. *)
Record VertexGroup : Type := {
  group_onMouseDown : MouseEvent → Handler;
  vertex_onClick : MouseEvent → Handler
}.

Definition _renderCurrent (props : Props) (feature : Feature.t)
  : list VertexGroup :=
  imap (λ i p,
    if default false (Feature.isClosed feature) then
      {| group_onMouseDown := λ evt, onDragVertex evt (Z.of_nat i);
         vertex_onClick := λ evt, onClickVertex evt (Z.of_nat i) SET |}
    else
      let operation :=
        if bool_decide (mode props = DRAW_POLYGON)
           && bool_decide (i = O)
           && bool_decide (2 < length (Feature.points feature))%nat
        then INTERSECT else SET in
      {| group_onMouseDown := λ evt, onClickVertex evt (Z.of_nat i) operation;
         vertex_onClick := λ evt, onClickVertex evt (Z.of_nat i) operation |})
    (Feature.points feature).

End DrawControl.

(** ** The second [DrawControl]: handlers on the event manager

    Lines 487 to 986 of [draw-control.js]. *)

Module DrawControl2.
Import JS GeoJSON.
Export Component.

(** The element an event hits, as its [className] and [id] classify it: the
    class starts with [feature] and the id is an index into the features,
    or it starts with [vertex] and the id is [index.operation], or
    neither. *)
Inductive Target : Type :=
| canvas
| featureElement (id : Z)
| vertexElement (index : Z) (operation : OPERATIONS).

Record MjolnirEvent : Type := {
  type : string;
  target : Target;
  offsetCenter : Z * Z
}.

Definition _getEventPosition (evt : MjolnirEvent) : Z * Z := offsetCenter evt.

Definition _onMouseUp (evt : MjolnirEvent) : M unit :=
  setState (λ s,
    {| features := features s; selectedId := selectedId s;
       draggingVertex := draggingVertex s; startDragPos := startDragPos s;
       isDragging := false; didDrag := false |});;
  s ← getState;
  if 0 <=? draggingVertex s then
    setState (λ s,
      {| features := features s; selectedId := selectedId s;
         draggingVertex := -1; startDragPos := startDragPos s;
         isDragging := isDragging s; didDrag := didDrag s |});;
    _update (features s)
  else mret tt.

Definition _onDragVertex (evt : MjolnirEvent) (index : Z) : M unit :=
  let pos := _getEventPosition evt in
  setState (λ s,
    {| features := features s; selectedId := selectedId s;
       draggingVertex := index; startDragPos := Some pos;
       isDragging := true; didDrag := false |}).

Definition _onMouseDown (evt : MjolnirEvent) : M unit :=
  match target evt with
  | vertexElement index _ => _onDragVertex evt index
  | _ => mret tt
  end.

Definition _onMouseMove (viewport : Viewport) (evt : MjolnirEvent) : M unit :=
  let pos := _getEventPosition evt in
  Component._onMouseMove viewport (fst pos) (snd pos).

(** [feature] is [this.state.features[elem.id]]: [None] when there is no
    such element, and reading its [id] raises. *)
Definition _onClickFeature (props : Props) (evt : MjolnirEvent)
  (feature : option Feature.t) : M unit :=
  s ← getState;
  if bool_decide (mode props = SELECT_FEATURE)
     || bool_decide (mode props = EDIT_VERTEX)
     || negb (truthy (selectedId s)) then
    match feature with
    | Some f => call (onSelect (Feature.id f))
    | None => throw
    end
  else mret tt.

Definition _onClick (props : Props) (viewport : Viewport)
  (evt : MjolnirEvent) (now : Z) : M unit :=
  if negb (String.eqb (type evt) "anyclick") then mret tt
  else
    match target evt with
    | featureElement id =>
        s ← getState;
        _onClickFeature props evt (get (features s) id)
    | vertexElement index operation => _onClickVertex index operation
    | canvas =>
        s ← getState;
        if didDrag s then mret tt
        else
          let pos := _getEventPosition evt in
          click props viewport (fst pos) (snd pos) now
    end.

(** The four handlers that [_setupEvents] registers. *)
Inductive Handler : Type :=
| onClick (evt : MjolnirEvent) (now : Z)
| onMouseMove (evt : MjolnirEvent)
| onMouseDown (evt : MjolnirEvent)
| onMouseUp (evt : MjolnirEvent).

Definition handle (props : Props) (viewport : Viewport) (handler : Handler)
  : M unit :=
  match handler with
  | onClick evt now => _onClick props viewport evt now
  | onMouseMove evt => _onMouseMove viewport evt
  | onMouseDown evt => _onMouseDown evt
  | onMouseUp evt => _onMouseUp evt
  end.

(** None of the four is [_onClickFeature]. *)
Definition _onEvent (props : Props) (viewport : Viewport) (handler : Handler)
  : M unit :=
  if bool_decide (mode props = READ_ONLY)
     || bool_decide (mode props = SELECT_FEATURE)
  then mret tt
  else handle props viewport handler.

Fixpoint run (props : Props) (viewport : Viewport) (events : list Handler)
  : M unit :=
  match events with
  | [] => mret tt
  | e :: events' => _onEvent props viewport e;; run props viewport events'
  end.

(** The elements that [_renderCurrent] draws for the vertices of the
    selected feature, as events on them are classified: [_renderVertex]
    writes the index and the operation into the id. *)
Definition _renderCurrent (props : Props) (feature : Feature.t)
  : list Target :=
  imap (λ i p,
    if default false (Feature.isClosed feature) then
      vertexElement (Z.of_nat i) SET
    else
      vertexElement (Z.of_nat i)
        (if bool_decide (mode props = DRAW_POLYGON)
            && bool_decide (i = O)
            && bool_decide (2 < length (Feature.points feature))%nat
         then INTERSECT else SET))
    (Feature.points feature).

End DrawControl2.

(** ** Notions the statements use *)

Import JS GeoJSON.

(** [index] is the index of a stored vertex. *)
Definition in_range (index : Z) (f : Feature.t) : Prop :=
  0 ≤ index < Z.of_nat (length (Feature.points f)).

(** [f] with other [points] and [isClosed]. *)
Definition reshaped (points' : list position) (isClosed' : option bool)
  (f : Feature.t) : Feature.t :=
  {| Feature.id := Feature.id f; Feature.type := Feature.type f;
     Feature.points := points'; Feature.isClosed := isClosed';
     Feature.otherProps := Feature.otherProps f |}.

(** A closed feature has three vertices or more. *)
Definition closed_invariant (f : Feature.t) : Prop :=
  Feature.isClosed f = Some true → (3 ≤ length (Feature.points f))%nat.

(** What [isClosed] is after [fromFeature]: the [isClosed] of the
    properties when they have one, and otherwise [true] for a [Polygon]. *)
Definition closedness (g : GeoJSON.feature) : option bool :=
  default (match geometry g with
           | Polygon _ => Some true
           | _ => None
           end) (key_isClosed (properties g)).

(** The vertex before [index] on the ring. *)
Definition predecessor (index : Z) (f : Feature.t) : Z :=
  if index =? 0 then Z.of_nat (length (Feature.points f)) - 1 else index - 1.

(** [points[index]], [undefined] outside the array. *)
Definition vertex (index : Z) (f : Feature.t) : position :=
  default Undefined (get (Feature.points f) index).

(** The properties an export carries, apart from [isClosed]. *)
Definition exported_properties (f : Feature.t) : Object :=
  {| key_id := Some (Feature.id f); key_type := None; key_points := None;
     key_isClosed := None; rest := Feature.otherProps f |}.

Import Component.

(** What a handler leaves alone when all it does is call methods of
    features and callbacks of the host. *)
Definition gesture (s : State) : Z * option (Z * Z) * bool * bool :=
  (draggingVertex s, startDragPos s, isDragging s, didDrag s).

(** [this.state] with other [features] and [selectedId]. *)
Definition showing (features' : list Feature.t) (selectedId' : value)
  (s : State) : State :=
  {| features := features'; selectedId := selectedId';
     draggingVertex := draggingVertex s; startDragPos := startDragPos s;
     isDragging := isDragging s; didDrag := didDrag s |}.

(** The squared distance from [origin] to [pos] is above the threshold. *)
Definition far (origin pos : Z * Z) : bool :=
  5 <? (fst pos - fst origin) * (fst pos - fst origin)
       + (snd pos - snd origin) * (snd pos - snd origin).

(** [_onEvent] of the first class lets the handlers run. *)
Definition gate_open (props : Props) : Prop :=
  mode props ≠ READ_ONLY ∧ mode props ≠ SELECT.

(** The handlers that start a gesture, in the one class and in the other. *)
Definition is_press (handler : DrawControl.Handler) : bool :=
  match handler with
  | DrawControl.onMouseDown _ | DrawControl.onDragVertex _ _ => true
  | _ => false
  end.

Definition is_press2 (handler : DrawControl2.Handler) : bool :=
  match handler with
  | DrawControl2.onMouseDown _ => true
  | _ => false
  end.

(** The event a handler of the first class is called with. *)
Definition event_of (handler : DrawControl.Handler) : DrawControl.MouseEvent :=
  match handler with
  | DrawControl.onBeforeClick evt _ | DrawControl.onMouseMove evt
  | DrawControl.onMouseDown evt | DrawControl.onMouseUp evt
  | DrawControl.onDragVertex evt _ | DrawControl.onClickVertex evt _ _
  | DrawControl.onClickFeature evt _ => evt
  end.

(** The position array that a click or a move at [pos] stores. *)
Definition unprojected (viewport : Viewport) (pos : Z * Z) : position :=
  Arr [fst (unproject viewport pos); snd (unproject viewport pos)].

Definition selected (selectedId : value) (fs : list Feature.t) : option nat :=
  findIndex (λ f, strict_eq (Feature.id f) selectedId) fs.

(** The features after [replacePoint(index, unproject(pos))] on the
    selected one. *)
Definition dragged (viewport : Viewport) (selectedId : value) (index : Z)
  (fs : list Feature.t) (pos : Z * Z) : list Feature.t :=
  match selected selectedId fs with
  | Some i =>
      match fs !! i with
      | Some f =>
          <[i := snd (Feature.replacePoint index (unprojected viewport pos) f)]>
            fs
      | None => fs
      end
  | None => fs
  end.

(** [_addPoint] commits the feature it has added the vertex to. *)
Definition commits (props : Props) (f : Feature.t) : bool :=
  bool_decide (mode props = DRAW_POINT)
  || (bool_decide (mode props = DRAW_PATH)
      && bool_decide (2 ≤ length (Feature.points f))%nat).

(** The array of the state after a method call on [r] has left [f']. *)
Definition stored (r : ref) (f' : Feature.t) (fs : list Feature.t)
  : list Feature.t :=
  match r with
  | held i => <[i := f']> fs
  | fresh _ => fs
  end.

(** Some feature of [fs] has the id of [f]. *)
Definition known (f : Feature.t) (fs : list Feature.t) : bool :=
  bool_decide
    (is_Some (findIndex (λ g, strict_eq (Feature.id g) (Feature.id f)) fs)).

(** The [type] of the record that [toFeature] exports. *)
Definition kind (f : Feature.t) : string :=
  if bool_decide (length (Feature.points f) < 2)%nat then "Point"
  else if bool_decide (Feature.isClosed f = Some true) then "Polygon"
  else "LineString".

(** [f] with another vertex at the end. *)
Definition extended (pt : position) (f : Feature.t) : Feature.t :=
  reshaped (Feature.points f ++ [pt]) (Feature.isClosed f) f.

(** The state while [f] is being drawn: it is the last feature and the
    selected one, and no other feature has its id. *)
Definition drawing (fs : list Feature.t) (f : Feature.t) (s : State) : Prop :=
  features s = fs ++ [f] ∧
  selectedId s = Feature.id f ∧
  strict_eq (Feature.id f) (Feature.id f) = true ∧
  ∀ g, g ∈ fs → strict_eq (Feature.id g) (Feature.id f) = false.

(** The feature that a first click at [pos] makes at time [now]. *)
Definition started (viewport : Viewport) (type : value) (pos : Z * Z)
  (now : Z) : Feature.t :=
  {| Feature.id := numeric (of_Z now); Feature.type := type;
     Feature.points := [unprojected viewport pos]; Feature.isClosed := None;
     Feature.otherProps := {[ "renderType" := type ]} |}.

(** No feature of the state is closed with fewer than three vertices. *)
Definition rings_closed (s : State) : Prop :=
  Forall closed_invariant (features s).

(** A handler that closes the path. *)
Definition closes (handler : DrawControl.Handler) : bool :=
  match handler with
  | DrawControl.onClickVertex _ _ INTERSECT => true
  | _ => false
  end.

(** The call that a handler of the first class makes in [SELECT] mode. *)
Definition selects (handler : DrawControl.Handler) : option Call :=
  match handler with
  | DrawControl.onClickFeature _ feature => Some (onSelect (Feature.id feature))
  | _ => None
  end.

(** [_onEvent] of the second class lets the handlers run. *)
Definition gate_open2 (props : Props) : Prop :=
  mode props ≠ READ_ONLY ∧ mode props ≠ SELECT_FEATURE.

(** An event of the second class that is neither a press on a vertex nor
    a click. *)
Definition idle (handler : DrawControl2.Handler) : bool :=
  match handler with
  | DrawControl2.onMouseDown evt =>
      match DrawControl2.target evt with
      | DrawControl2.vertexElement _ _ => false
      | _ => true
      end
  | DrawControl2.onMouseMove _ | DrawControl2.onMouseUp _ => true
  | DrawControl2.onClick _ _ => false
  end.

(** What a press on a vertex closes: the first vertex of an open feature
    of three vertices or more, in [DRAW_POLYGON] mode. *)
Definition closing (props : Props) (f : Feature.t) (i : nat) : Prop :=
  mode props = DRAW_POLYGON ∧ i = O ∧ (3 ≤ length (Feature.points f))%nat.

(** [f'] is [f] after export and hydration. *)
Definition rehydrated (f f' : Feature.t) : Prop :=
  Feature.id f' = Feature.id f ∧
  Feature.otherProps f' = Feature.otherProps f ∧
  Feature.type f' = text (kind f) ∧
  Feature.points f' =
    (if bool_decide (Feature.points f = []) then [Undefined]
     else Feature.points f) ∧
  Feature.isClosed f' =
    (if bool_decide (kind f = "Polygon") then Some true else None).

(** Inputs the statements are checked on. *)
Definition at_ (x y : Z) : position := Arr [of_Z x; of_Z y].

Definition sample_ring : list position := [at_ 0 0; at_ 2 2; at_ 0 0].

Definition sample_props : Props := {| mode := DRAW_POINT |}.

Definition sample_viewport : Viewport :=
  {| unproject := λ pos, (of_Z (fst pos), of_Z (snd pos)) |}.

Definition sample_event (x y : Z) : DrawControl.MouseEvent :=
  {| DrawControl.clientX := x; DrawControl.clientY := y |}.

Definition sample_event2 : DrawControl2.MjolnirEvent :=
  {| DrawControl2.type := "pointerup";
     DrawControl2.target := DrawControl2.canvas;
     DrawControl2.offsetCenter := (3, 0) |}.

Definition sample_state (features : list Feature.t) (selectedId : value)
  : State :=
  {| features := features; selectedId := selectedId; draggingVertex := -1;
     startDragPos := None; isDragging := false; didDrag := false |}.

(** A vertex drag under way, three pixels from where it began. *)
Definition sample_dragged : State :=
  {| features := []; selectedId := null; draggingVertex := 0;
     startDragPos := Some (0, 0); isDragging := true; didDrag := true |}.

Definition sample (points : list position) (isClosed : option bool)
  : Feature.t :=
  {| Feature.id := numeric (of_Z 1); Feature.type := text "Polygon";
     Feature.points := points; Feature.isClosed := isClosed;
     Feature.otherProps := ∅ |}.

Definition triangle : list position := [at_ 0 0; at_ 1 0; at_ 1 1].

Definition polygon_props : Props := {| mode := DRAW_POLYGON |}.

Definition path_props : Props := {| mode := DRAW_PATH |}.

Definition sample_event2_on (type : string) (target : DrawControl2.Target)
  (x y : Z) : DrawControl2.MjolnirEvent :=
  {| DrawControl2.type := type; DrawControl2.target := target;
     DrawControl2.offsetCenter := (x, y) |}.



(** Helpers that refuse a [Point] without coordinates, a [LineString] of
    fewer than two positions and a ring of fewer than four. *)
Definition sample_helpers : Helpers :=
  {| accepts g :=
       match geometry g with
       | Point c => defined c
       | LineString cs => (2 <=? length cs)%nat
       | Polygon rings => forallb (λ ring, (4 <=? length ring)%nat) rings
       | Other _ => true
       end |}.

(** ** Arrays *)

Section ArrayFacts.
Context {A : Type}.
Implicit Types (l : list A) (i : Z).

Lemma get_Some l i a :
  get l i = Some a ↔ 0 ≤ i ∧ l !! Z.to_nat i = Some a.
Proof.
  unfold get. destruct (Z.ltb_spec i 0).
  - split; [done|]. intros [? _]. lia.
  - split; [by intros ?|by intros [_ ?]].
Qed.

Lemma get_is_Some l i :
  is_Some (get l i) ↔ 0 ≤ i < Z.of_nat (length l).
Proof.
  unfold get. destruct (Z.ltb_spec i 0).
  - split; [by intros [? ?] | lia].
  - rewrite lookup_lt_is_Some. lia.
Qed.

Lemma splice_remove l i :
  0 ≤ i < Z.of_nat (length l) →
  splice l i 1 [] = delete (Z.to_nat i) l.
Proof.
  intros Hi. unfold splice, relative.
  destruct (Z.ltb_spec i 0); [lia|].
  rewrite delete_take_drop. simpl. f_equal; [f_equal; lia|].
  f_equal. lia.
Qed.

Lemma splice_insert l i items :
  0 ≤ i ≤ Z.of_nat (length l) →
  splice l i 0 items = take (Z.to_nat i) l ++ items ++ drop (Z.to_nat i) l.
Proof.
  intros Hi. unfold splice, relative.
  destruct (Z.ltb_spec i 0); [lia|].
  f_equal; [f_equal; lia|]. f_equal. f_equal. lia.
Qed.

Lemma slice_all_but_last l a : slice (l ++ [a]) 0 (-1) = l.
Proof.
  unfold slice, relative. simpl.
  rewrite length_app. simpl.
  replace (Z.to_nat (0 `min` _)) with O by lia.
  replace (Z.to_nat _) with (length l) by lia.
  by rewrite drop_0, take_app_length.
Qed.

Lemma length_slice_all_but_last l :
  length (slice l 0 (-1)) = (length l - 1)%nat.
Proof.
  unfold slice, relative.
  change (0 <? 0) with false. change (-1 <? 0) with true. cbv iota.
  rewrite length_take, length_drop. lia.
Qed.

Lemma findIndex_Some (p : A → bool) l n :
  findIndex p l = Some n → ∃ a, l !! n = Some a ∧ p a = true.
Proof.
  revert n. induction l as [|a l IH]; intros n; simpl; [done|].
  destruct (p a) eqn:Hp.
  - intros [= <-]. eauto.
  - destruct (findIndex p l) as [m|]; simpl; [|done].
    intros [= <-]. destruct (IH m eq_refl) as (b & ? & ?). eauto.
Qed.

Lemma findIndex_is_Some (p : A → bool) l (n : nat) a :
  l !! n = Some a → p a = true → is_Some (findIndex p l).
Proof.
  revert n. induction l as [|b l IH]; intros n; [done|]. simpl.
  destruct (p b) eqn:Hb; [by eauto|]. destruct n as [|n]; simpl.
  - intros [= ->] Hp. congruence.
  - intros Hl Hp. destruct (IH n Hl Hp) as [m ->]. by eexists.
Qed.

End ArrayFacts.

(** ** [Feature]: export *)

Section Exporting.
Implicit Types (f : Feature.t) (p q : position).

Lemma spread_others (o : Object) (m : gmap string value) :
  rest o = ∅ →
  spread o (others m) =
  {| key_id := key_id o; key_type := key_type o; key_points := key_points o;
     key_isClosed := key_isClosed o; rest := m |}.
Proof.
  intros Ho. unfold spread, others. simpl. rewrite Ho.
  rewrite (right_id_L ∅ (∪)).
  by destruct (key_id o), (key_type o), (key_points o), (key_isClosed o).
Qed.

Lemma array_to_number_pair p q (ps : list position) :
  lt (array_to_number (p :: q :: ps)) (of_Z 3) = false.
Proof. done. Qed.

(** What [toFeature] does, by the number of vertices and [isClosed]. *)
Lemma toFeature_single f :
  (length (Feature.points f) < 2)%nat →
  Feature.toFeature f =
  point (default Undefined (Feature.points f !! O)) (exported_properties f).
Proof.
  intros Hlen. unfold Feature.toFeature.
  destruct (Z.ltb_spec (Z.of_nat (length (Feature.points f))) 2); [|lia].
  by rewrite spread_others.
Qed.

Lemma toFeature_open f :
  (2 ≤ length (Feature.points f))%nat →
  Feature.isClosed f ≠ Some true →
  Feature.toFeature f = lineString (Feature.points f) (exported_properties f).
Proof.
  intros Hlen Hopen. unfold Feature.toFeature.
  destruct (Z.ltb_spec (Z.of_nat (length (Feature.points f))) 2); [lia|].
  rewrite spread_others by done.
  destruct (Feature.isClosed f) as [[]|]; simpl; try done;
    by rewrite orb_true_r.
Qed.

Lemma toFeature_closed f p q (ps : list position) :
  Feature.points f = p :: q :: ps →
  Feature.isClosed f = Some true →
  Feature.toFeature f =
  polygon [Feature.points f ++ [p]]
    {| key_id := Some (Feature.id f); key_type := None; key_points := None;
       key_isClosed := Some (Some true); rest := Feature.otherProps f |}.
Proof.
  intros Hps Hclosed. unfold Feature.toFeature.
  rewrite Hps, Hclosed, array_to_number_pair. simpl.
  destruct (Z.ltb_spec (Z.of_nat (S (S (length ps)))) 2); [lia|].
  by rewrite spread_others.
Qed.

(** C1, as the code has it.  The claim sends every feature with fewer
    than three vertices that is not a point to a [LineString].  A closed
    feature with exactly two vertices is exported as a [Polygon] instead,
    with the ring [p, q, p]: the test [points < 3] compares the array, not
    its length, and is false for every array of two elements or more. *)
Theorem toFeature_closed_pair f p q :
  Feature.points f = [p; q] →
  Feature.isClosed f = Some true →
  geometry (Feature.toFeature f) = Polygon [[p; q; p]].
Proof.
  intros Hps Hclosed. rewrite (toFeature_closed f p q []) by done.
  by rewrite Hps.
Qed.

End Exporting.

(** ** [Feature]: vertex operations *)

Section Vertices.
Implicit Types (f : Feature.t) (p q pt : position) (index : Z).

Lemma vertex_defined f index :
  defined (vertex index f) = true → in_range index f.
Proof.
  unfold vertex, in_range. intros Hdef. apply get_is_Some.
  destruct (get (Feature.points f) index); [eauto|done].
Qed.

Lemma removePoint_spec f index :
  Feature.removePoint index f =
  if bool_decide (in_range index f) then
    let points' := delete (Z.to_nat index) (Feature.points f) in
    (true,
     reshaped points'
       (if bool_decide (length points' < 3)%nat then Some false
        else Feature.isClosed f) f)
  else (false, f).
Proof.
  unfold Feature.removePoint, in_range.
  destruct (Z.leb_spec 0 index), (Z.ltb_spec index
    (Z.of_nat (length (Feature.points f)))); simpl;
    try (rewrite bool_decide_eq_false_2 by lia; done).
  rewrite bool_decide_eq_true_2 by lia.
  rewrite splice_remove by lia. simpl. unfold reshaped. do 2 f_equal.
  destruct (Z.ltb_spec (Z.of_nat (length (delete (Z.to_nat index)
    (Feature.points f)))) 3).
  - by rewrite bool_decide_eq_true_2 by lia.
  - by rewrite bool_decide_eq_false_2 by lia.
Qed.

Lemma replacePoint_spec f index pt :
  Feature.replacePoint index pt f =
  if bool_decide (in_range index f) then
    (true,
     reshaped (<[Z.to_nat index := pt]> (Feature.points f))
       (Feature.isClosed f) f)
  else (false, f).
Proof.
  unfold Feature.replacePoint, in_range.
  destruct (Z.leb_spec 0 index), (Z.ltb_spec index
    (Z.of_nat (length (Feature.points f)))); simpl;
    try (rewrite bool_decide_eq_false_2 by lia; done).
  by rewrite bool_decide_eq_true_2 by lia.
Qed.

Lemma insertPoint_spec f index :
  Feature.insertPoint index f =
  if defined (vertex index f) && defined (vertex (predecessor index f) f) then
    (true,
     reshaped
       (take (Z.to_nat index) (Feature.points f)
          ++ [Feature.midpoint (vertex index f)
                (vertex (predecessor index f) f)]
          ++ drop (Z.to_nat index) (Feature.points f))
       (Feature.isClosed f) f)
  else (false, f).
Proof.
  unfold Feature.insertPoint. fold (predecessor index f).
  fold (vertex index f) (vertex (predecessor index f) f).
  destruct (defined (vertex index f)) eqn:Hp; simpl; [|done].
  destruct (defined (vertex (predecessor index f) f)); [|done].
  apply vertex_defined in Hp. unfold in_range in Hp.
  by rewrite splice_insert by lia.
Qed.

Lemma closePath_spec f :
  Feature.closePath f =
  if bool_decide (3 ≤ length (Feature.points f))%nat then
    (true, reshaped (Feature.points f) (Some true) f)
  else (false, f).
Proof.
  unfold Feature.closePath.
  destruct (Z.leb_spec 3 (Z.of_nat (length (Feature.points f)))).
  - by rewrite bool_decide_eq_true_2 by lia.
  - by rewrite bool_decide_eq_false_2 by lia.
Qed.

(** C2, as the code has it.  The vertices are position arrays, which have
    no [x] and no [y]: between two of them [insertPoint] inserts
    [[NaN, NaN]], whatever their coordinates, and not their midpoint. *)
Theorem insertPoint_between_arrays f index (e1 e2 : list number) :
  get (Feature.points f) index = Some (Arr e1) →
  get (Feature.points f) (predecessor index f) = Some (Arr e2) →
  Feature.insertPoint index f =
  (true,
   reshaped
     (take (Z.to_nat index) (Feature.points f) ++ [Arr [NaN; NaN]]
        ++ drop (Z.to_nat index) (Feature.points f))
     (Feature.isClosed f) f).
Proof.
  intros Hp Hprev. rewrite insertPoint_spec. unfold vertex.
  by rewrite Hp, Hprev.
Qed.

(** C4.  [closePath] returns [true] exactly when there are three vertices
    or more, and then sets [isClosed] and nothing else; otherwise it
    returns [false] and the feature is as it was. *)
Theorem closePath_iff_three_points f :
  (fst (Feature.closePath f) = true ↔ (3 ≤ length (Feature.points f))%nat) ∧
  ((3 ≤ length (Feature.points f))%nat →
   Feature.closePath f = (true, reshaped (Feature.points f) (Some true) f)) ∧
  ((length (Feature.points f) < 3)%nat → Feature.closePath f = (false, f)).
Proof.
  rewrite closePath_spec. case_bool_decide; simpl.
  - split_and!; [done|done|lia].
  - split_and!; [split; [done|lia]|lia|done].
Qed.

(** C6.  [removePoint], [replacePoint] and [insertPoint] are total.
    Outside the range (for [insertPoint]: when the vertex at [index] or the
    one before it is [undefined]) they return [false] and the feature is
    as it was; otherwise they return [true] and the vertex has been
    removed, replaced or inserted. *)
Theorem mutations_fail_without_change f index pt :
  (Feature.removePoint index f =
   if bool_decide (in_range index f) then
     let points' := delete (Z.to_nat index) (Feature.points f) in
     (true,
      reshaped points'
        (if bool_decide (length points' < 3)%nat then Some false
         else Feature.isClosed f) f)
   else (false, f)) ∧
  (Feature.replacePoint index pt f =
   if bool_decide (in_range index f) then
     (true,
      reshaped (<[Z.to_nat index := pt]> (Feature.points f))
        (Feature.isClosed f) f)
   else (false, f)) ∧
  (Feature.insertPoint index f =
   if defined (vertex index f) && defined (vertex (predecessor index f) f)
   then
     (true,
      reshaped
        (take (Z.to_nat index) (Feature.points f)
           ++ [Feature.midpoint (vertex index f)
                 (vertex (predecessor index f) f)]
           ++ drop (Z.to_nat index) (Feature.points f))
        (Feature.isClosed f) f)
   else (false, f)) ∧
  (fst (Feature.removePoint index f) = true ↔
   snd (Feature.removePoint index f) ≠ f) ∧
  (fst (Feature.replacePoint index pt f) = true ↔
   Feature.points (snd (Feature.replacePoint index pt f)) !! Z.to_nat index
   = Some pt ∧ 0 ≤ index) ∧
  (fst (Feature.insertPoint index f) = true ↔
   snd (Feature.insertPoint index f) ≠ f) ∧
  (¬ in_range index f → fst (Feature.insertPoint index f) = false).
Proof.
  split_and!.
  - apply removePoint_spec.
  - apply replacePoint_spec.
  - apply insertPoint_spec.
  - rewrite removePoint_spec. case_bool_decide as Hr; simpl.
    + split; [|done]. intros _ Heq.
      apply (f_equal (λ g, length (Feature.points g))) in Heq. simpl in Heq.
      rewrite length_delete in Heq; [unfold in_range in Hr; lia|].
      apply lookup_lt_is_Some. unfold in_range in Hr. lia.
    + split; [done|]. by intros [].
  - rewrite replacePoint_spec. unfold in_range. case_bool_decide as Hr; simpl.
    + split; [|done]. intros _. split; [|lia].
      apply list_lookup_insert_eq. lia.
    + split; [done|]. intros [Hl ?]. apply lookup_lt_Some in Hl. lia.
  - rewrite insertPoint_spec.
    destruct (defined (vertex index f)
              && defined (vertex (predecessor index f) f)); simpl.
    + split; [|done]. intros _ Heq.
      apply (f_equal (λ g, length (Feature.points g))) in Heq. simpl in Heq.
      rewrite !length_app in Heq. simpl in Heq.
      rewrite <-(take_drop (Z.to_nat index) (Feature.points f)) in Heq at 3.
      rewrite length_app in Heq. lia.
    + split; [done|]. by intros [].
  - intros Hout. rewrite insertPoint_spec.
    destruct (defined (vertex index f)) eqn:Hp; [|done].
    by apply vertex_defined in Hp.
Qed.

End Vertices.

(** ** [Feature]: export followed by hydration *)

Section RoundTrip.
Implicit Types (f : Feature.t) (p q : position).

Lemma fromFeature_point f p :
  Feature.fromFeature (point p (exported_properties f)) =
  Returns (Some
    {| Feature.id := Feature.id f; Feature.type := text "Point";
       Feature.points := [p]; Feature.isClosed := None;
       Feature.otherProps := Feature.otherProps f |}).
Proof.
  unfold Feature.fromFeature, Feature.new, spread. simpl.
  by rewrite (right_id_L ∅ (∪)).
Qed.

Lemma fromFeature_lineString f (cs : list position) :
  Feature.fromFeature (lineString cs (exported_properties f)) =
  Returns (Some
    {| Feature.id := Feature.id f; Feature.type := text "LineString";
       Feature.points := cs; Feature.isClosed := None;
       Feature.otherProps := Feature.otherProps f |}).
Proof.
  unfold Feature.fromFeature, Feature.new, spread. simpl.
  by rewrite (right_id_L ∅ (∪)).
Qed.

Lemma fromFeature_polygon f (ring : list position) p (closed : option bool) :
  Feature.fromFeature
    (polygon [ring ++ [p]]
       {| key_id := Some (Feature.id f); key_type := None;
          key_points := None; key_isClosed := Some closed;
          rest := Feature.otherProps f |}) =
  Returns (Some
    {| Feature.id := Feature.id f; Feature.type := text "Polygon";
       Feature.points := ring; Feature.isClosed := closed;
       Feature.otherProps := Feature.otherProps f |}).
Proof.
  unfold Feature.fromFeature, Feature.new, spread. simpl.
  by rewrite (right_id_L ∅ (∪)), slice_all_but_last.
Qed.

(** C3.  When [toFeature] exports a [LineString], [fromFeature] of the
    export has the same [points]; when it exports a [Polygon],
    [fromFeature] of the export has the same [points], without the closing
    vertex of the ring, and [isClosed] is [true].  The id and the other
    properties come back as well. *)
Theorem toFeature_fromFeature f :
  (∀ cs, geometry (Feature.toFeature f) = LineString cs →
     ∃ f', Feature.fromFeature (Feature.toFeature f) = Returns (Some f') ∧
           Feature.points f' = Feature.points f ∧
           Feature.id f' = Feature.id f ∧
           Feature.otherProps f' = Feature.otherProps f) ∧
  (∀ rings, geometry (Feature.toFeature f) = Polygon rings →
     ∃ f', Feature.fromFeature (Feature.toFeature f) = Returns (Some f') ∧
           Feature.points f' = Feature.points f ∧
           Feature.isClosed f' = Some true ∧
           Feature.id f' = Feature.id f ∧
           Feature.otherProps f' = Feature.otherProps f).
Proof.
  destruct (Feature.points f) as [|p [|q ps]] eqn:Hps.
  - rewrite toFeature_single by (rewrite Hps; simpl; lia). by split.
  - rewrite toFeature_single by (rewrite Hps; simpl; lia). by split.
  - destruct (decide (Feature.isClosed f = Some true)) as [Hc|Hc].
    + rewrite (toFeature_closed f p q ps) by done.
      split; [done|]. intros rings _.
      rewrite fromFeature_polygon. eexists. split; [done|]. simpl.
      by rewrite Hps.
    + rewrite toFeature_open by (rewrite ?Hps; simpl; done || lia).
      split; [|done]. intros cs _.
      rewrite fromFeature_lineString. eexists. split; [done|]. simpl.
      by rewrite Hps.
Qed.

End RoundTrip.

(** ** [Feature]: a closed ring has three vertices *)

Section Closed.
Implicit Types (f : Feature.t) (p q pt : position) (index : Z).

(** C5, as stated, fails: a [Polygon] whose properties say nothing of
    [isClosed] is closed after [fromFeature], and a ring of three positions
    leaves two vertices. *)
Lemma hydration_breaks_closed_invariant :
  ¬ (∀ g f, Feature.fromFeature g = Returns (Some f) → closed_invariant f).
Proof.
  intros H.
  specialize (H (polygon [sample_ring] (others ∅)) _ eq_refl).
  specialize (H eq_refl). vm_compute in H. lia.
Qed.

(** C5, amended.  Every mutation keeps the invariant, and a [removePoint]
    that leaves fewer than three vertices sets [isClosed] to [false].  The
    constructor and [fromFeature] check nothing, and give the invariant
    exactly when what they are given has it: for the constructor, an
    [isClosed] that is not [true] or three [points] or more; for
    [fromFeature], with [isClosed] taken from the properties when they have
    it and [true] for a [Polygon] otherwise, an [isClosed] that is not
    [true], or four positions or more in the outer ring of a [Polygon],
    three or more in a [LineString], three or more in the [points] of the
    properties when they have some.  What [toFeature] exports of a feature
    that has the invariant comes back from [fromFeature] with it. *)
Theorem closed_invariant_kept f :
  closed_invariant f →
  (∀ pt, closed_invariant (snd (Feature.addPoint pt f))) ∧
  (∀ index, closed_invariant (snd (Feature.removePoint index f))) ∧
  (∀ index pt, closed_invariant (snd (Feature.replacePoint index pt f))) ∧
  (∀ index, closed_invariant (snd (Feature.insertPoint index f))) ∧
  closed_invariant (snd (Feature.closePath f)) ∧
  (∀ index,
     fst (Feature.removePoint index f) = true →
     (length (Feature.points (snd (Feature.removePoint index f))) < 3)%nat →
     Feature.isClosed (snd (Feature.removePoint index f)) = Some false) ∧
  (∀ args,
     closed_invariant (Feature.new args) ↔
     (default None (key_isClosed args) = Some true →
      (3 ≤ length (default [] (key_points args)))%nat)) ∧
  (∀ g f', Feature.fromFeature g = Returns (Some f') →
     Feature.isClosed f' = closedness g) ∧
  (∀ g ring rings f',
     geometry g = Polygon (ring :: rings) →
     key_points (properties g) = None →
     Feature.fromFeature g = Returns (Some f') →
     (closed_invariant f' ↔
      (closedness g = Some true → (4 ≤ length ring)%nat))) ∧
  (∀ g cs f',
     geometry g = LineString cs →
     key_points (properties g) = None →
     Feature.fromFeature g = Returns (Some f') →
     (closed_invariant f' ↔
      (closedness g = Some true → (3 ≤ length cs)%nat))) ∧
  (∀ g c f',
     geometry g = Point c →
     key_points (properties g) = None →
     Feature.fromFeature g = Returns (Some f') →
     (closed_invariant f' ↔ closedness g ≠ Some true)) ∧
  (∀ g ps f',
     key_points (properties g) = Some ps →
     Feature.fromFeature g = Returns (Some f') →
     (closed_invariant f' ↔
      (closedness g = Some true → (3 ≤ length ps)%nat))) ∧
  (∀ f', Feature.fromFeature (Feature.toFeature f) = Returns (Some f') →
     closed_invariant f').
Proof.
  intros Hinv. split_and!.
  - intros pt. unfold closed_invariant in *. simpl. rewrite length_app.
    intros Hc. specialize (Hinv Hc). lia.
  - intros index. unfold closed_invariant in *. rewrite removePoint_spec.
    case_bool_decide; simpl; [|done].
    case_bool_decide; [done|]. lia.
  - intros index pt. unfold closed_invariant in *. rewrite replacePoint_spec.
    case_bool_decide; simpl; [|done]. by rewrite length_insert.
  - intros index. unfold closed_invariant in *. rewrite insertPoint_spec.
    destruct (_ && _); simpl; [|done]. intros Hc. specialize (Hinv Hc).
    rewrite length_app, length_take, length_cons, length_drop. lia.
  - unfold closed_invariant in *. rewrite closePath_spec.
    case_bool_decide; simpl; [done|done].
  - intros index. rewrite removePoint_spec.
    case_bool_decide; simpl; [|done]. intros _ Hlt.
    by rewrite bool_decide_eq_true_2.
  - intros args. by unfold closed_invariant, Feature.new.
  - intros g f'. unfold Feature.fromFeature, Feature.new, closedness.
    destruct (geometry g) as [c|cs|[|ring rings]|?]; simpl; try done;
      intros [= <-]; simpl; by destruct (key_isClosed (properties g)).
  - intros g ring rings f' Hg Hpoints.
    unfold Feature.fromFeature, Feature.new, closedness, closed_invariant.
    rewrite Hg, Hpoints. simpl. intros [= <-]. simpl.
    rewrite length_slice_all_but_last.
    destruct (key_isClosed (properties g)); simpl; split; intros H Hc;
      specialize (H Hc); lia.
  - intros g cs f' Hg Hpoints.
    unfold Feature.fromFeature, Feature.new, closedness, closed_invariant.
    rewrite Hg, Hpoints. simpl. intros [= <-]. simpl.
    by destruct (key_isClosed (properties g)).
  - intros g c f' Hg Hpoints.
    unfold Feature.fromFeature, Feature.new, closedness, closed_invariant.
    rewrite Hg, Hpoints. simpl. intros [= <-]. simpl.
    destruct (key_isClosed (properties g)); simpl; split; intros H Hc;
      try done; specialize (H Hc); lia.
  - intros g ps f' Hpoints.
    unfold Feature.fromFeature, Feature.new, closedness, closed_invariant.
    rewrite Hpoints.
    destruct (geometry g) as [c|cs|[|ring rings]|?]; simpl; try done;
      intros [= <-]; simpl; by destruct (key_isClosed (properties g)).
  - intros f'. destruct (Feature.points f) as [|p [|q ps]] eqn:Hps.
    + rewrite toFeature_single by (rewrite Hps; simpl; lia).
      rewrite fromFeature_point. by intros [= <-].
    + rewrite toFeature_single by (rewrite Hps; simpl; lia).
      rewrite fromFeature_point. by intros [= <-].
    + destruct (decide (Feature.isClosed f = Some true)) as [Hc|Hc].
      * rewrite (toFeature_closed f p q ps) by done.
        rewrite fromFeature_polygon. intros [= <-] _. simpl.
        by apply Hinv.
      * rewrite toFeature_open by (rewrite ?Hps; simpl; done || lia).
        rewrite fromFeature_lineString. by intros [= <-].
Qed.

End Closed.

(** ** Handlers: running them *)

Section Running.
Context {A B : Type}.
Implicit Types (s : State) (k : A → M B).

Lemma bind_Returns (m : M A) k s a s1 calls1 :
  m s = Returns (a, s1, calls1) →
  (m ≫= k) s =
  match k a s1 with
  | Returns (b, s2, calls2) => Returns (b, s2, calls1 ++ calls2)
  | Throws => Throws
  end.
Proof. intros Hm. unfold mbind, M_bind. by rewrite Hm. Qed.

Lemma bind_pure (m : M A) k s a s1 :
  m s = Returns (a, s1, []) → (m ≫= k) s = k a s1.
Proof.
  intros Hm. rewrite (bind_Returns _ _ _ _ _ _ Hm).
  destruct (k a s1) as [[[b s2] calls2]|]; reflexivity.
Qed.

Lemma bind_inv (m : M A) k s b s2 calls :
  (m ≫= k) s = Returns (b, s2, calls) →
  ∃ a s1 calls1 calls2,
    m s = Returns (a, s1, calls1) ∧ k a s1 = Returns (b, s2, calls2) ∧
    calls = calls1 ++ calls2.
Proof.
  unfold mbind, M_bind. destruct (m s) as [[[a s1] calls1]|]; [|done].
  destruct (k a s1) as [[[b' s2'] calls2]|] eqn:Hk; [|done].
  intros [= <- <- <-]. by exists a, s1, calls1, calls2.
Qed.

End Running.

Section Frames.
Implicit Types (s : State) (props : Props) (viewport : Viewport).

Lemma invoke_held {R} (method : Feature.t → R * Feature.t) s i f :
  features s !! i = Some f →
  invoke (held i) method s =
  Returns ((fst (method f), held i),
           {| features := <[i := snd (method f)]> (features s);
              selectedId := selectedId s;
              draggingVertex := draggingVertex s;
              startDragPos := startDragPos s;
              isDragging := isDragging s; didDrag := didDrag s |}, []).
Proof. intros Hf. unfold invoke. by rewrite Hf. Qed.

Lemma invoke_frame {R} (r : ref) (method : Feature.t → R * Feature.t)
  s a s' calls :
  invoke r method s = Returns (a, s', calls) →
  gesture s' = gesture s ∧ selectedId s' = selectedId s ∧ calls = [].
Proof.
  unfold invoke. destruct r as [i|f].
  - destruct (features s !! i); [|done]. by intros [= <- <- <-].
  - by intros [= <- <- <-].
Qed.

Lemma deref_frame (r : ref) s f s' calls :
  deref r s = Returns (f, s', calls) → s' = s ∧ calls = [].
Proof.
  unfold deref. destruct r as [i|g].
  - destruct (features s !! i); [|done]. by intros [= <- <- <-].
  - by intros [= <- <- <-].
Qed.

Lemma getSelectedFeature_eq s :
  _getSelectedFeature s =
  Returns (findIndex (λ f, strict_eq (Feature.id f) (selectedId s))
             (features s), s, []).
Proof. done. Qed.

Lemma addPoint_frame props viewport x y r s s' calls :
  _addPoint props viewport x y r s = Returns (tt, s', calls) →
  gesture s' = gesture s.
Proof.
  unfold _addPoint. intros H.
  apply bind_inv in H as ([b r'] & s1 & c1 & c2 & H1 & H & _).
  apply invoke_frame in H1 as (Hg1 & _ & _).
  apply bind_inv in H as (f & s2 & c3 & c4 & H2 & H & _).
  apply deref_frame in H2 as [-> _].
  apply bind_inv in H as (s3 & s4 & c5 & c6 & [= <- <- <-] & H & _).
  rewrite <-Hg1. clear Hg1.
  destruct (_ || _).
  - unfold _update, call, mbind, M_bind in H. by injection H as <- _.
  - unfold setState in H. by injection H as <- _.
Qed.

Lemma closePath_frame s s' calls :
  _closePath s = Returns (tt, s', calls) → gesture s' = gesture s.
Proof.
  unfold _closePath. rewrite (bind_pure _ _ _ _ _ (getSelectedFeature_eq s)).
  destruct (findIndex _ _) as [i|]; [|done]. intros H.
  apply bind_inv in H as (a & s1 & c1 & c2 & H1 & H & _).
  apply invoke_frame in H1 as (Hg1 & _ & _). rewrite <-Hg1.
  unfold _update, call, getState, deref, mbind, M_bind in H.
  destruct (features s1 !! i); [|done]. by injection H as <- _.
Qed.

Lemma click_frame props viewport x y now s s' calls :
  click props viewport x y now s = Returns (tt, s', calls) →
  gesture s' = gesture s.
Proof.
  unfold click. rewrite (bind_pure _ _ _ _ _ (getSelectedFeature_eq s)).
  unfold _addFeature.
  destruct (mode props); try (by intros [= <- _]);
    try (by apply addPoint_frame).
  all: destruct (findIndex _ _) as [i|]; try (by apply addPoint_frame).
  all: intros H; apply bind_inv in H as (f & s1 & c1 & c2 & H1 & H & _).
  all: apply deref_frame in H1 as [-> _].
  all: destruct (default false (Feature.isClosed f));
    [by injection H as <- _ | by eapply addPoint_frame].
Qed.

End Frames.

(** ** Handlers: press, move, release *)

Section Gestures.
Implicit Types (s : State) (props : Props) (viewport : Viewport).
Implicit Types (evt : DrawControl.MouseEvent).

Lemma onMouseMove_spec viewport x y s :
  Component._onMouseMove viewport x y s =
  Returns (tt,
    {| features :=
         if isDragging s && (0 <=? draggingVertex s)
         then dragged viewport (selectedId s) (draggingVertex s) (features s)
                (x, y)
         else features s;
       selectedId := selectedId s;
       draggingVertex := draggingVertex s;
       startDragPos := startDragPos s;
       isDragging := isDragging s;
       didDrag :=
         didDrag s
         || (isDragging s
             && from_option (λ origin, far origin (x, y)) false
                  (startDragPos s)) |}, []).
Proof.
  unfold Component._onMouseMove, dragged, selected, unprojected, far.
  destruct s as [fs sel dv sp dragging dd].
  unfold _getSelectedFeature.
  unfold mbind, M_bind, mret, M_ret, getState, setState, invoke.
  cbn [features selectedId draggingVertex startDragPos isDragging didDrag
       fst snd from_option].
  destruct dragging, dd; cbn [andb orb negb];
    try destruct sp as [[x0 y0]|]; cbn [from_option fst snd];
    try destruct (5 <? _); cbn [andb orb negb];
    destruct (0 <=? dv);
    cbn [features selectedId draggingVertex startDragPos isDragging didDrag];
    try reflexivity.
  all: destruct (findIndex _ fs) as [i|] eqn:Hi;
    cbn [features selectedId draggingVertex startDragPos isDragging didDrag];
    [|reflexivity].
  all: destruct (findIndex_Some _ _ _ Hi) as (f & Hf & _); rewrite Hf.
  all: reflexivity.
Qed.

Lemma onEvent_open props viewport handler :
  gate_open props →
  DrawControl._onEvent props viewport handler =
  DrawControl.handle props viewport handler.
Proof.
  intros [Hr Hs]. unfold DrawControl._onEvent.
  by rewrite !bool_decide_eq_false_2.
Qed.

Lemma run_cons props viewport handler events s s1 calls1 :
  DrawControl._onEvent props viewport handler s = Returns (tt, s1, calls1) →
  DrawControl.run props viewport (handler :: events) s =
  match DrawControl.run props viewport events s1 with
  | Returns (b, s2, calls2) => Returns (b, s2, calls1 ++ calls2)
  | Throws => Throws
  end.
Proof. intros H. simpl. by rewrite (bind_Returns _ _ _ _ _ _ H). Qed.

(** Moves while the button is down. *)
Lemma moves_run props viewport origin (moves : list DrawControl.MouseEvent) :
  gate_open props →
  ∀ s, isDragging s = true → startDragPos s = Some origin →
  ∃ s',
    DrawControl.run props viewport (DrawControl.onMouseMove <$> moves) s =
    Returns (tt, s', []) ∧
    features s' =
      foldl (λ fs evt,
               if 0 <=? draggingVertex s
               then dragged viewport (selectedId s) (draggingVertex s) fs
                      (DrawControl._getEventPosition evt)
               else fs) (features s) moves ∧
    selectedId s' = selectedId s ∧
    draggingVertex s' = draggingVertex s ∧
    startDragPos s' = Some origin ∧
    isDragging s' = true ∧
    didDrag s' =
      didDrag s
      || existsb (λ evt, far origin (DrawControl._getEventPosition evt)) moves.
Proof.
  intros Hgate. induction moves as [|evt moves IH]; intros s Hd Ho.
  - exists s. simpl. by rewrite orb_false_r.
  - pose proof (onMouseMove_spec viewport (DrawControl.clientX evt)
      (DrawControl.clientY evt) s) as Hmove.
    rewrite Hd, Ho in Hmove. simpl in Hmove.
    match type of Hmove with _ = Returns (_, ?t, _) => set (s1 := t) in * end.
    destruct (IH s1 eq_refl eq_refl) as (s' & Hrun & Hf & Hsel & Hdv & Hsp & Hid & Hdd).
    exists s'. split_and!; try done.
    + rewrite fmap_cons.
      rewrite (run_cons _ _ _ _ _ s1 []); [by rewrite Hrun|].
      by rewrite onEvent_open.
    + rewrite Hdd. simpl. by rewrite orb_assoc.
Qed.

Lemma press_spec props viewport press s :
  is_press press = true →
  ∃ s0,
    DrawControl.handle props viewport press s = Returns (tt, s0, []) ∧
    features s0 = features s ∧ selectedId s0 = selectedId s ∧
    startDragPos s0 = Some (DrawControl._getEventPosition (event_of press)) ∧
    isDragging s0 = true ∧ didDrag s0 = false ∧
    draggingVertex s0 =
      match press with
      | DrawControl.onDragVertex _ index => index
      | _ => draggingVertex s
      end.
Proof. destruct press; try done; intros _; by eexists. Qed.

Lemma onMouseUp_spec evt s :
  DrawControl._onMouseUp evt s =
  Returns (tt,
    {| features := features s; selectedId := selectedId s;
       draggingVertex := if 0 <=? draggingVertex s then -1
                         else draggingVertex s;
       startDragPos := startDragPos s; isDragging := false;
       didDrag := didDrag s |},
    if 0 <=? draggingVertex s
    then [onUpdate (Feature.toFeature <$> features s)] else []).
Proof.
  unfold DrawControl._onMouseUp, _update.
  unfold mbind, M_bind, mret, M_ret, getState, setState, call. simpl.
  by destruct (0 <=? draggingVertex s).
Qed.

Lemma handle_keeps_didDrag props viewport handler s s' calls :
  DrawControl.handle props viewport handler s = Returns (tt, s', calls) →
  is_press handler = false →
  didDrag s = true → didDrag s' = true.
Proof.
  intros H Hp Hd. destruct handler as [evt now|evt|evt|evt|evt i|evt i op|evt f];
    simpl in *; try done.
  - unfold DrawControl._onBeforeClick, mbind, M_bind, getState in H.
    rewrite Hd in H. simpl in H. by injection H as <- _.
  - unfold DrawControl._onMouseMove in H. rewrite onMouseMove_spec in H.
    injection H as <- _. simpl. by rewrite Hd.
  - rewrite onMouseUp_spec in H. by injection H as <- _.
  - unfold _onClickVertex in H. destruct (bool_decide _).
    + apply closePath_frame in H. unfold gesture in H. congruence.
    + by injection H as <- _.
  - unfold DrawControl._onClickFeature, mbind, M_bind, getState in H.
    destruct (_ || _); by injection H as <- _.
Qed.

(** C7, as stated, fails in the second class: there [_onMouseUp] sets
    [didDrag] back to [false], so a release that ends a drag resets the
    flag before the click arrives. *)
Lemma release_resets_didDrag :
  ¬ (∀ props viewport handler s s' calls,
       DrawControl2._onEvent props viewport handler s
       = Returns (tt, s', calls) →
       didDrag s = true → didDrag s' = false → is_press2 handler = true).
Proof.
  intros H.
  specialize (H sample_props sample_viewport
    (DrawControl2.onMouseUp sample_event2) sample_dragged _ _ eq_refl
    eq_refl eq_refl).
  done.
Qed.

(** The second class on a whole gesture: a press on a vertex, a move three
    pixels away, the release and a click on the canvas.  The release has
    set [didDrag] back, and the click adds a point. *)
Lemma second_class_click_after_drag :
  DrawControl2.run sample_props sample_viewport
    [DrawControl2.onMouseDown
       {| DrawControl2.type := "pointerdown";
          DrawControl2.target := DrawControl2.vertexElement 0 SET;
          DrawControl2.offsetCenter := (0, 0) |};
     DrawControl2.onMouseMove
       {| DrawControl2.type := "pointermove";
          DrawControl2.target := DrawControl2.canvas;
          DrawControl2.offsetCenter := (3, 0) |};
     DrawControl2.onMouseUp sample_event2;
     DrawControl2.onClick
       {| DrawControl2.type := "anyclick";
          DrawControl2.target := DrawControl2.canvas;
          DrawControl2.offsetCenter := (3, 0) |} 7]
    (sample_state [] null)
  = Returns (tt,
      {| features := []; selectedId := null; draggingVertex := -1;
         startDragPos := Some (0, 0); isDragging := false;
         didDrag := false |},
      [onUpdate [];
       onUpdate
         [point (at_ 3 0)
            {| key_id := Some (numeric (of_Z 7)); key_type := None;
               key_points := None; key_isClosed := None;
               rest := {[ "renderType" := text "Point" ]} |}];
       onSelect (numeric (of_Z 7))]).
Proof. reflexivity. Qed.

(** C7, amended.  In the first class: after a press, [didDrag] is [true]
    exactly when one of the moves since was at a squared distance above 5
    from the press; [_onBeforeClick] runs [_onClick] exactly when [didDrag]
    is [false]; and only a press sets [didDrag] back to [false], a click
    and a release leave it as it is.  In the second class a release sets
    it back as well. *)
Theorem didDrag_gates_click props viewport :
  (∀ press moves s,
     gate_open props → is_press press = true →
     ∃ s',
       DrawControl.run props viewport
         (press :: (DrawControl.onMouseMove <$> moves)) s
       = Returns (tt, s', []) ∧
       didDrag s' =
         existsb
           (λ evt, far (DrawControl._getEventPosition (event_of press))
                     (DrawControl._getEventPosition evt)) moves) ∧
  (∀ evt now s,
     DrawControl._onBeforeClick props viewport evt now s =
     if didDrag s then Returns (tt, s, [])
     else DrawControl._onClick props viewport evt now s) ∧
  (∀ handler s s' calls,
     DrawControl._onEvent props viewport handler s = Returns (tt, s', calls) →
     didDrag s = true → didDrag s' = false → is_press handler = true) ∧
  (∀ evt now s s' calls,
     DrawControl._onBeforeClick props viewport evt now s
     = Returns (tt, s', calls) →
     didDrag s' = didDrag s) ∧
  (∀ evt s s' calls,
     DrawControl._onMouseUp evt s = Returns (tt, s', calls) →
     didDrag s' = didDrag s) ∧
  (∀ (evt2 : DrawControl2.MjolnirEvent) s, ∃ s' calls,
     DrawControl2._onMouseUp evt2 s = Returns (tt, s', calls) ∧
     didDrag s' = false).
Proof.
  split_and!.
  - intros press moves s Hgate Hpress.
    destruct (press_spec props viewport press s Hpress)
      as (s0 & Hs0 & _ & _ & Hsp & Hid & Hdd & _).
    destruct (moves_run props viewport _ moves Hgate s0 Hid Hsp)
      as (s' & Hrun & _ & _ & _ & _ & _ & Hdd').
    exists s'. split.
    + rewrite (run_cons _ _ _ _ _ s0 []); [by rewrite Hrun|].
      by rewrite onEvent_open.
    + by rewrite Hdd', Hdd.
  - intros evt now s.
    unfold DrawControl._onBeforeClick, mbind, M_bind, getState.
    destruct (didDrag s); simpl; [done|].
    by destruct (DrawControl._onClick props viewport evt now s)
      as [[[[] ?] ?]|].
  - intros handler s s' calls H Hd Hd'.
    destruct (is_press handler) eqn:Hp; [done|]. exfalso.
    unfold DrawControl._onEvent in H. destruct (_ || _).
    + injection H as <- _. congruence.
    + pose proof (handle_keeps_didDrag _ _ _ _ _ _ H Hp Hd). congruence.
  - intros evt now s s' calls.
    unfold DrawControl._onBeforeClick, mbind, M_bind, getState.
    destruct (didDrag s) eqn:Hd; simpl.
    + intros [= <- _]. done.
    + unfold DrawControl._onClick.
      destruct (click _ _ _ _ _ s) as [[[[] s1] calls1]|] eqn:Hclick;
        [|done].
      intros [= <- _]. apply click_frame in Hclick.
      unfold gesture in Hclick. congruence.
  - intros evt s s' calls. rewrite onMouseUp_spec. by intros [= <- _].
  - intros evt2 s. unfold DrawControl2._onMouseUp, _update.
    unfold mbind, M_bind, mret, M_ret, getState, setState, call. simpl.
    destruct (0 <=? draggingVertex s); by eexists _, _.
Qed.

(** C9.  In the first class, a move while [isDragging] with
    [draggingVertex >= 0] calls [replacePoint] at that index on the
    selected feature, with the unprojected position, and calls nothing of
    the host.  A release calls [onUpdate] once, with the export of all the
    features, when a vertex was being dragged, and nothing otherwise.  So
    over a vertex drag, from the press on the vertex to the release,
    [onUpdate] is called once, by the release; a release after that calls
    nothing. *)
Theorem vertex_drag_updates_on_release props viewport :
  (∀ s evt,
     isDragging s = true → 0 ≤ draggingVertex s →
     ∃ s',
       DrawControl._onMouseMove viewport evt s = Returns (tt, s', []) ∧
       features s' =
         dragged viewport (selectedId s) (draggingVertex s) (features s)
           (DrawControl._getEventPosition evt) ∧
       draggingVertex s' = draggingVertex s ∧
       isDragging s' = true) ∧
  (∀ s evt,
     ∃ s',
       DrawControl._onMouseUp evt s =
       Returns (tt, s',
                if bool_decide (0 ≤ draggingVertex s)
                then [onUpdate (Feature.toFeature <$> features s)] else []) ∧
       features s' = features s ∧
       isDragging s' = false ∧
       (0 ≤ draggingVertex s → draggingVertex s' = -1)) ∧
  (∀ s evt0 index moves evt1,
     gate_open props → 0 ≤ index →
     ∃ s1 s2,
       DrawControl.run props viewport
         (DrawControl.onDragVertex evt0 index
            :: (DrawControl.onMouseMove <$> moves)) s
       = Returns (tt, s1, []) ∧
       features s1 =
         foldl (λ fs evt, dragged viewport (selectedId s) index fs
                            (DrawControl._getEventPosition evt))
           (features s) moves ∧
       DrawControl._onEvent props viewport (DrawControl.onMouseUp evt1) s1
       = Returns (tt, s2, [onUpdate (Feature.toFeature <$> features s1)]) ∧
       features s2 = features s1 ∧
       draggingVertex s2 = -1 ∧
       isDragging s2 = false ∧
       ∀ evt2, ∃ s3,
         DrawControl._onEvent props viewport (DrawControl.onMouseUp evt2) s2
         = Returns (tt, s3, [])).
Proof.
  split_and!.
  - intros s evt Hd Hdv. eexists. split.
    + unfold DrawControl._onMouseMove. apply onMouseMove_spec.
    + rewrite Hd. destruct (Z.leb_spec 0 (draggingVertex s)); [done|lia].
  - intros s evt. rewrite onMouseUp_spec.
    assert (bool_decide (0 ≤ draggingVertex s) = (0 <=? draggingVertex s))
      as ->.
    { destruct (Z.leb_spec 0 (draggingVertex s)).
      - by rewrite bool_decide_eq_true_2.
      - by rewrite bool_decide_eq_false_2 by lia. }
    eexists. split; [reflexivity|split_and!].
    + done.
    + done.
    + simpl. intros Hdv.
      destruct (Z.leb_spec 0 (draggingVertex s)); [done|lia].
  - intros s evt0 index moves evt1 Hgate Hindex.
    destruct (press_spec props viewport
      (DrawControl.onDragVertex evt0 index) s eq_refl)
      as (s0 & Hs0 & Hf0 & Hsel0 & Hsp & Hid & _ & Hdv0).
    destruct (moves_run props viewport _ moves Hgate s0 Hid Hsp)
      as (s1 & Hrun & Hf & _ & Hdv & _ & _ & _).
    rewrite Hdv0, Hsel0, Hf0 in Hf. rewrite Hdv0 in Hdv.
    destruct (Z.leb_spec 0 index) as [_|]; [|lia].
    eexists s1, _. split_and!.
    + rewrite (run_cons _ _ _ _ _ s0 []); [by rewrite Hrun|].
      by rewrite onEvent_open.
    + done.
    + rewrite onEvent_open by done. simpl. rewrite onMouseUp_spec, Hdv.
      destruct (Z.leb_spec 0 index) as [_|]; [|lia]. reflexivity.
    + done.
    + done.
    + done.
    + intros evt2. rewrite onEvent_open by done. simpl.
      rewrite onMouseUp_spec. simpl. by eexists.
Qed.

End Gestures.

(** ** Handlers: adding a vertex *)

Section Adding.
Implicit Types (s : State) (props : Props) (viewport : Viewport).
Implicit Types (f : Feature.t) (r : ref).

Lemma showing_same s : showing (features s) (selectedId s) s = s.
Proof. by destruct s. Qed.

Lemma addPoint_spec props viewport x y r f s :
  deref r s = Returns (f, s, []) →
  let f' := snd (Feature.addPoint (unprojected viewport (x, y)) f) in
  let fs := stored r f' (features s) in
  let features' := if known f' fs then fs else fs ++ [f'] in
  _addPoint props viewport x y r s =
  if commits props f' then
    Returns (tt, showing fs (selectedId s) s,
             [onUpdate (Feature.toFeature <$> features');
              onSelect (Feature.id f')])
  else Returns (tt, showing features' (Feature.id f') s, []).
Proof.
  intros Hr f' fs features'. subst features' fs. unfold commits, known.
  assert ((2 <=? Z.of_nat (length (Feature.points f')))
          = bool_decide (2 ≤ length (Feature.points f'))%nat) as Hlen.
  { destruct (Z.leb_spec 2 (Z.of_nat (length (Feature.points f')))).
    - by rewrite bool_decide_eq_true_2 by lia.
    - by rewrite bool_decide_eq_false_2 by lia. }
  unfold _addPoint. fold (unprojected viewport (x, y)).
  destruct r as [i|f0]; simpl in Hr.
  - destruct (features s !! i) as [g|] eqn:Hi; [|done].
    injection Hr as ->.
    rewrite (bind_pure _ _ _ _ _ (invoke_held _ s i f Hi)).
    fold f'. cbn [snd]. unfold deref at 1.
    unfold mbind at 1, M_bind at 1. cbn [features].
    rewrite list_lookup_insert_eq by (by eapply lookup_lt_Some).
    unfold mbind at 1, M_bind at 1, getState. cbn [features].
    rewrite Hlen. cbn [stored].
    destruct (bool_decide (mode props = DRAW_POINT)
              || bool_decide (mode props = DRAW_PATH)
                 && bool_decide (2 ≤ length (Feature.points f'))%nat);
      destruct (bool_decide (is_Some _)); reflexivity.
  - injection Hr as <-.
    unfold invoke, deref, getState, mbind, M_bind. fold f'. cbn [snd stored].
    rewrite Hlen.
    destruct (bool_decide (mode props = DRAW_POINT)
              || bool_decide (mode props = DRAW_PATH)
                 && bool_decide (2 ≤ length (Feature.points f'))%nat);
      destruct (bool_decide (is_Some _)); cbn [negb];
      by rewrite ?showing_same.
Qed.

(** C8, as stated, fails when the time of the click is already the id of
    a feature: [_addPoint] takes the new feature for one it has, by its id,
    and the export that [onUpdate] gets has no [Point] at the click. *)
Lemma click_at_known_id_adds_nothing :
  ¬ (∀ props viewport evt now s,
       mode props = DRAW_POINT → didDrag s = false →
       ∃ s' gs,
         DrawControl._onEvent props viewport
           (DrawControl.onBeforeClick evt now) s
         = Returns (tt, s', [onUpdate gs; onSelect (numeric (of_Z now))]) ∧
         ∃ g, g ∈ gs ∧
           geometry g =
           Point (unprojected viewport (DrawControl._getEventPosition evt))).
Proof.
  intros H.
  destruct (H sample_props sample_viewport (sample_event 10 20) 1
              (sample_state [sample [at_ 0 0] None] null) eq_refl eq_refl)
    as (s' & gs & Hrun & g & Hg & Hgeo).
  vm_compute in Hrun. injection Hrun as _ <-.
  apply list_elem_of_singleton in Hg. subst g. vm_compute in Hgeo.
  discriminate Hgeo.
Qed.

(** C8, amended.  [_addPoint] adds the unprojected position to the
    feature.  It then calls [onUpdate], with the export of the features,
    and [onSelect], with the id of the feature, once each, exactly when the
    mode is [DRAW_POINT], or is [DRAW_PATH] and the feature has two
    vertices or more; otherwise it calls nothing and selects the feature.
    A feature that the state does not hold is added to the export, or to
    the state, only when no feature of the state has its id.  So a click in
    [DRAW_POINT] mode at a time that no feature has as its id makes the two
    calls for a [Point] at the unprojected position, after the features
    there were; at a time that a feature has as its id it makes the two
    calls as well, with the export of the features there were and no
    more. *)
Theorem addPoint_commits props viewport :
  (∀ x y r f s,
     deref r s = Returns (f, s, []) →
     let f' := snd (Feature.addPoint (unprojected viewport (x, y)) f) in
     let fs := stored r f' (features s) in
     let features' := if known f' fs then fs else fs ++ [f'] in
     _addPoint props viewport x y r s =
     if commits props f' then
       Returns (tt, showing fs (selectedId s) s,
                [onUpdate (Feature.toFeature <$> features');
                 onSelect (Feature.id f')])
     else Returns (tt, showing features' (Feature.id f') s, [])) ∧
  (∀ evt now s,
     mode props = DRAW_POINT →
     didDrag s = false →
     (∀ g, g ∈ features s →
        strict_eq (Feature.id g) (numeric (of_Z now)) = false) →
     DrawControl._onEvent props viewport (DrawControl.onBeforeClick evt now) s
     = Returns (tt, s,
         [onUpdate
            ((Feature.toFeature <$> features s)
               ++ [point
                     (unprojected viewport (DrawControl._getEventPosition evt))
                     {| key_id := Some (numeric (of_Z now));
                        key_type := None; key_points := None;
                        key_isClosed := None;
                        rest := {[ "renderType" := text "Point" ]} |}]);
          onSelect (numeric (of_Z now))])) ∧
  (∀ evt now s g,
     mode props = DRAW_POINT →
     didDrag s = false →
     g ∈ features s →
     strict_eq (Feature.id g) (numeric (of_Z now)) = true →
     DrawControl._onEvent props viewport (DrawControl.onBeforeClick evt now) s
     = Returns (tt, s,
         [onUpdate (Feature.toFeature <$> features s);
          onSelect (numeric (of_Z now))])).
Proof.
  assert (∀ evt now s,
    mode props = DRAW_POINT → didDrag s = false →
    DrawControl._onEvent props viewport (DrawControl.onBeforeClick evt now) s
    = _addPoint props viewport (DrawControl.clientX evt)
        (DrawControl.clientY evt)
        (fresh (Feature.new
           {| key_id := Some (numeric (of_Z now));
              key_type := Some (text "Point");
              key_points := None; key_isClosed := None;
              rest := {[ "renderType" := text "Point" ]} |})) s) as Hclick.
  { intros evt now s Hmode Hd.
    rewrite onEvent_open by (unfold gate_open; rewrite Hmode; done).
    cbn [DrawControl.handle].
    unfold DrawControl._onBeforeClick.
    rewrite (bind_pure getState _ s s s eq_refl), Hd. cbn [negb].
    unfold DrawControl._onClick, click.
    rewrite (bind_pure _ _ _ _ _ (getSelectedFeature_eq s)), Hmode.
    reflexivity. }
  split_and!; [apply addPoint_spec| |].
  - intros evt now s Hmode Hd Hfresh. rewrite Hclick by done.
    rewrite (addPoint_spec props viewport _ _ (fresh _) _ s eq_refl).
    unfold commits. rewrite Hmode, bool_decide_eq_true_2 by done. cbn [orb].
    cbn [stored]. unfold known at 1.
    rewrite bool_decide_eq_false_2; last first.
    { intros [i Hi]. apply findIndex_Some in Hi as (g & Hg & Heq).
      apply list_elem_of_lookup_2 in Hg. specialize (Hfresh g Hg).
      simpl in Heq. congruence. }
    rewrite showing_same, fmap_app. repeat f_equal.
  - intros evt now s g Hmode Hd Hg Hid. rewrite Hclick by done.
    rewrite (addPoint_spec props viewport _ _ (fresh _) _ s eq_refl).
    unfold commits. rewrite Hmode, bool_decide_eq_true_2 by done. cbn [orb].
    cbn [stored]. unfold known at 1.
    rewrite bool_decide_eq_true_2; last first.
    { apply list_elem_of_lookup_1 in Hg as [i Hi].
      by apply (findIndex_is_Some _ _ i g). }
    by rewrite showing_same.
Qed.

End Adding.

(** ** The statements at concrete inputs *)

(** A closed feature with the two vertices (0,0) and (1,1). *)
Lemma toFeature_closed_pair_witness :
  Feature.points (sample [at_ 0 0; at_ 1 1] (Some true))
  = [at_ 0 0; at_ 1 1] ∧
  Feature.isClosed (sample [at_ 0 0; at_ 1 1] (Some true)) = Some true ∧
  geometry (Feature.toFeature (sample [at_ 0 0; at_ 1 1] (Some true)))
  = Polygon [[at_ 0 0; at_ 1 1; at_ 0 0]].
Proof.
  split; [reflexivity|]. split; [reflexivity|].
  apply (toFeature_closed_pair (sample [at_ 0 0; at_ 1 1] (Some true)));
    reflexivity.
Defined.

(** [insertPoint(1)] between (0,0) and (2,2). *)
Lemma insertPoint_between_arrays_witness :
  get (Feature.points (sample [at_ 0 0; at_ 2 2] None)) 1
  = Some (Arr [of_Z 2; of_Z 2]) ∧
  get (Feature.points (sample [at_ 0 0; at_ 2 2] None))
    (predecessor 1 (sample [at_ 0 0; at_ 2 2] None))
  = Some (Arr [of_Z 0; of_Z 0]) ∧
  Feature.insertPoint 1 (sample [at_ 0 0; at_ 2 2] None)
  = (true, sample [at_ 0 0; Arr [NaN; NaN]; at_ 2 2] None).
Proof.
  split; [reflexivity|]. split; [reflexivity|].
  exact (insertPoint_between_arrays (sample [at_ 0 0; at_ 2 2] None) 1
           [of_Z 2; of_Z 2] [of_Z 0; of_Z 0] eq_refl eq_refl).
Defined.

(** An open line of two vertices and a closed triangle, there and back. *)
Lemma toFeature_fromFeature_witness :
  (∃ f', Feature.fromFeature
           (Feature.toFeature (sample [at_ 0 0; at_ 1 1] None))
         = Returns (Some f') ∧
         Feature.points f' = [at_ 0 0; at_ 1 1]) ∧
  (∃ f', Feature.fromFeature
           (Feature.toFeature
              (sample [at_ 0 0; at_ 1 0; at_ 1 1] (Some true)))
         = Returns (Some f') ∧
         Feature.points f' = [at_ 0 0; at_ 1 0; at_ 1 1] ∧
         Feature.isClosed f' = Some true).
Proof.
  split.
  - destruct (toFeature_fromFeature (sample [at_ 0 0; at_ 1 1] None))
      as [Hline _].
    destruct (Hline _ eq_refl) as (f' & Hf' & Hpoints & _).
    exists f'. split; [exact Hf' | exact Hpoints].
  - destruct (toFeature_fromFeature
                (sample [at_ 0 0; at_ 1 0; at_ 1 1] (Some true)))
      as [_ Hring].
    destruct (Hring _ eq_refl) as (f' & Hf' & Hpoints & Hclosed & _).
    exists f'. split; [exact Hf' | split; [exact Hpoints | exact Hclosed]].
Defined.

(** [closePath] on three vertices and on two. *)
Lemma closePath_iff_three_points_witness :
  Feature.closePath (sample [at_ 0 0; at_ 1 0; at_ 1 1] None)
  = (true, sample [at_ 0 0; at_ 1 0; at_ 1 1] (Some true)) ∧
  Feature.closePath (sample [at_ 0 0; at_ 1 0] None)
  = (false, sample [at_ 0 0; at_ 1 0] None).
Proof.
  split.
  - apply (closePath_iff_three_points
             (sample [at_ 0 0; at_ 1 0; at_ 1 1] None)).
    simpl. lia.
  - apply (closePath_iff_three_points (sample [at_ 0 0; at_ 1 0] None)).
    simpl. lia.
Defined.

(** A closed triangle loses a vertex; the same triangle, exported and
    hydrated again. *)
Lemma closed_invariant_kept_witness :
  closed_invariant (sample [at_ 0 0; at_ 1 0; at_ 1 1] (Some true)) ∧
  closed_invariant
    (snd (Feature.removePoint 0
            (sample [at_ 0 0; at_ 1 0; at_ 1 1] (Some true)))) ∧
  Feature.isClosed
    (snd (Feature.removePoint 0
            (sample [at_ 0 0; at_ 1 0; at_ 1 1] (Some true))))
  = Some false ∧
  ∃ f',
    Feature.fromFeature
      (Feature.toFeature (sample [at_ 0 0; at_ 1 0; at_ 1 1] (Some true)))
    = Returns (Some f') ∧
    Feature.isClosed f' = Some true ∧ closed_invariant f'.
Proof.
  assert (closed_invariant (sample [at_ 0 0; at_ 1 0; at_ 1 1] (Some true)))
    as Hinv by (intros _; simpl; lia).
  split; [exact Hinv|].
  destruct (closed_invariant_kept _ Hinv)
    as (_ & Hremove & _ & _ & _ & Hopen & _ & _ & _ & _ & _ & _ & Hback).
  split; [apply Hremove|].
  split; [apply Hopen; [reflexivity | simpl; lia]|].
  eexists. split; [reflexivity|]. split; [reflexivity|].
  apply Hback. reflexivity.
Defined.

(** Two vertices: index 2 is out of range, index 1 is not. *)
Lemma mutations_fail_without_change_witness :
  Feature.removePoint 2 (sample [at_ 0 0; at_ 1 0] None)
  = (false, sample [at_ 0 0; at_ 1 0] None) ∧
  Feature.replacePoint 1 (at_ 2 2) (sample [at_ 0 0; at_ 1 0] None)
  = (true, sample [at_ 0 0; at_ 2 2] None) ∧
  Feature.insertPoint 2 (sample [at_ 0 0; at_ 1 0] None)
  = (false, sample [at_ 0 0; at_ 1 0] None).
Proof.
  destruct (mutations_fail_without_change (sample [at_ 0 0; at_ 1 0] None) 2
              (at_ 2 2)) as (Hremove & _ & Hinsert & _).
  destruct (mutations_fail_without_change (sample [at_ 0 0; at_ 1 0] None) 1
              (at_ 2 2)) as (_ & Hreplace & _).
  split; [exact Hremove|]. split; [exact Hreplace | exact Hinsert].
Defined.

(** A press at (0,0): a move to (1,2) is at squared distance 5, one to (3,0)
    at 9. *)
Lemma didDrag_gates_click_witness :
  gate_open sample_props ∧
  (∃ s',
     DrawControl.run sample_props sample_viewport
       [DrawControl.onMouseDown (sample_event 0 0);
        DrawControl.onMouseMove (sample_event 1 2);
        DrawControl.onMouseMove (sample_event 3 0)]
       (sample_state [] null)
     = Returns (tt, s', []) ∧ didDrag s' = true) ∧
  (∃ s',
     DrawControl.run sample_props sample_viewport
       [DrawControl.onMouseDown (sample_event 0 0);
        DrawControl.onMouseMove (sample_event 1 2)]
       (sample_state [] null)
     = Returns (tt, s', []) ∧ didDrag s' = false).
Proof.
  assert (gate_open sample_props) as Hgate by (split; discriminate).
  split; [exact Hgate|].
  destruct (didDrag_gates_click sample_props sample_viewport) as (Hmoves & _).
  split.
  - exact (Hmoves (DrawControl.onMouseDown (sample_event 0 0))
             [sample_event 1 2; sample_event 3 0] (sample_state [] null)
             Hgate eq_refl).
  - exact (Hmoves (DrawControl.onMouseDown (sample_event 0 0))
             [sample_event 1 2] (sample_state [] null) Hgate eq_refl).
Defined.

(** A click at (10,20) in [DRAW_POINT] mode, with no feature yet. *)
Lemma addPoint_commits_witness :
  mode sample_props = DRAW_POINT ∧
  didDrag (sample_state [] null) = false ∧
  DrawControl._onEvent sample_props sample_viewport
    (DrawControl.onBeforeClick (sample_event 10 20) 1000)
    (sample_state [] null)
  = Returns (tt, sample_state [] null,
      [onUpdate
         [point (at_ 10 20)
            {| key_id := Some (numeric (of_Z 1000)); key_type := None;
               key_points := None; key_isClosed := None;
               rest := {[ "renderType" := text "Point" ]} |}];
       onSelect (numeric (of_Z 1000))]).
Proof.
  split; [reflexivity|]. split; [reflexivity|].
  destruct (addPoint_commits sample_props sample_viewport)
    as (_ & Hclick & _).
  apply (Hclick (sample_event 10 20) 1000 (sample_state [] null));
    [reflexivity | reflexivity |].
  intros g Hg. simpl in Hg. destruct (not_elem_of_nil g Hg).
Defined.

(** Vertex 1 of a selected triangle, dragged from (1,0) to (2,2). *)
Lemma vertex_drag_updates_on_release_witness :
  gate_open {| mode := DRAW_POLYGON |} ∧
  0 ≤ 1 ∧
  ∃ s1 s2,
    DrawControl.run {| mode := DRAW_POLYGON |} sample_viewport
      [DrawControl.onDragVertex (sample_event 1 0) 1;
       DrawControl.onMouseMove (sample_event 2 2)]
      (sample_state [sample [at_ 0 0; at_ 1 0; at_ 1 1] (Some true)]
         (numeric (of_Z 1)))
    = Returns (tt, s1, []) ∧
    features s1 = [sample [at_ 0 0; at_ 2 2; at_ 1 1] (Some true)] ∧
    DrawControl._onEvent {| mode := DRAW_POLYGON |} sample_viewport
      (DrawControl.onMouseUp (sample_event 2 2)) s1
    = Returns (tt, s2, [onUpdate (Feature.toFeature <$> features s1)]).
Proof.
  assert (gate_open {| mode := DRAW_POLYGON |}) as Hgate
    by (split; discriminate).
  split; [exact Hgate|]. split; [lia|].
  destruct (vertex_drag_updates_on_release {| mode := DRAW_POLYGON |}
              sample_viewport) as (_ & _ & Hdrag).
  destruct (Hdrag
              (sample_state [sample [at_ 0 0; at_ 1 0; at_ 1 1] (Some true)]
                 (numeric (of_Z 1)))
              (sample_event 1 0) 1 [sample_event 2 2] (sample_event 2 2)
              Hgate ltac:(lia))
    as (s1 & s2 & Hrun & Hfeatures & Hup & _).
  exists s1, s2. split; [exact Hrun|]. split; [exact Hfeatures | exact Hup].
Defined.

(** * Further properties *)

(** ** [Feature]: hydration and export, both ways *)

Section Hydration.
Implicit Types (f : Feature.t) (g : GeoJSON.feature) (p q : position).

Lemma slice_without_last {A} (l : list A) :
  slice l 0 (-1) = take (length l - 1) l.
Proof.
  unfold slice, relative.
  change (0 <? 0) with false. change (-1 <? 0) with true. cbv iota.
  replace (Z.to_nat (0 `min` Z.of_nat (length l))) with O by lia.
  rewrite drop_0. f_equal. lia.
Qed.

Lemma round_trip f :
  ∃ f',
    Feature.fromFeature (Feature.toFeature f) = Returns (Some f') ∧
    rehydrated f f'.
Proof.
  unfold rehydrated, kind. destruct (Feature.points f) as [|p [|q ps]] eqn:Hps.
  - rewrite toFeature_single by (rewrite Hps; simpl; lia).
    rewrite Hps, fromFeature_point. simpl. by eexists.
  - rewrite toFeature_single by (rewrite Hps; simpl; lia).
    rewrite Hps, fromFeature_point. simpl. by eexists.
  - rewrite (bool_decide_eq_false_2 (_ < 2)%nat) by (simpl; lia).
    rewrite (bool_decide_eq_false_2 (_ = [])) by done.
    destruct (decide (Feature.isClosed f = Some true)) as [Hc|Hc].
    + rewrite (toFeature_closed f p q ps) by done.
      rewrite fromFeature_polygon, Hps.
      rewrite (bool_decide_eq_true_2 (Feature.isClosed f = _)) by done.
      by eexists.
    + rewrite toFeature_open by (rewrite ?Hps; simpl; done || lia).
      rewrite fromFeature_lineString, Hps.
      rewrite (bool_decide_eq_false_2 (Feature.isClosed f = _)) by done.
      by eexists.
Qed.

(** Export followed by hydration.  When the helper takes what
    [toFeature] hands it, [fromFeature] of the record it returns gives a
    feature, not [null].  That feature has the id, the other properties
    and, when there is a vertex at all, the vertices of the one exported;
    its [type] is the kind of the export, whatever the [type] was;
    [isClosed] is [true] for a polygon and [undefined] otherwise.  A
    feature without vertices, if the helper takes it, comes back with one
    vertex, [undefined]. *)
Theorem export_then_hydrate helpers f g :
  Feature.toFeature_with helpers f = Returns g →
  g = Feature.toFeature f ∧
  ∃ f',
    Feature.fromFeature g = Returns (Some f') ∧
    Feature.id f' = Feature.id f ∧
    Feature.otherProps f' = Feature.otherProps f ∧
    Feature.type f' = text (kind f) ∧
    Feature.points f' =
      (if bool_decide (Feature.points f = []) then [Undefined]
       else Feature.points f) ∧
    Feature.isClosed f' =
      (if bool_decide (kind f = "Polygon") then Some true else None).
Proof.
  unfold Feature.toFeature_with, checked.
  destruct (accepts helpers _); [|done]. intros [= <-].
  split; [done|]. exact (round_trip f).
Qed.

(** Hydration of a [LineString] followed by export gives the coordinates
    back only when there are two or more: a single position comes back as
    a [Point], and none as a [Point] of [undefined]. *)
Theorem lineString_hydrated_exported g (cs : list position) :
  geometry g = LineString cs →
  key_points (properties g) = None →
  default None (key_isClosed (properties g)) ≠ Some true →
  ∃ f,
    Feature.fromFeature g = Returns (Some f) ∧
    geometry (Feature.toFeature f) =
      match cs with
      | [] => Point Undefined
      | [p] => Point p
      | _ :: _ :: _ => LineString cs
      end.
Proof.
  intros Hg Hpoints Hclosed. unfold Feature.fromFeature.
  rewrite Hg. eexists. split; [reflexivity|].
  match goal with |- geometry (Feature.toFeature ?t) = _ => set (f := t) end.
  assert (Feature.points f = cs) as Hps
    by (subst f; unfold Feature.new; simpl; by rewrite Hpoints).
  assert (Feature.isClosed f ≠ Some true) as Hopen
    by (subst f; unfold Feature.new; simpl;
        by destruct (key_isClosed (properties g))).
  clearbody f. destruct cs as [|p [|q cs]].
  - rewrite toFeature_single; rewrite Hps; simpl; [done|lia].
  - rewrite toFeature_single; rewrite Hps; simpl; [done|lia].
  - rewrite toFeature_open; rewrite ?Hps; simpl; [done|lia|done].
Qed.

(** Hydration of a [Polygon] followed by export keeps the outer ring
    only: the holes are gone.  The last position of the ring is dropped
    and the first one is put in its place; a ring of two positions comes
    back as a [Point], and a shorter one as a [Point] of [undefined]. *)
Theorem polygon_hydrated_exported g (ring : list position)
  (holes : list (list position)) :
  geometry g = Polygon (ring :: holes) →
  key_points (properties g) = None →
  key_isClosed (properties g) = None →
  ∃ f,
    Feature.fromFeature g = Returns (Some f) ∧
    geometry (Feature.toFeature f) =
      match take (length ring - 1) ring with
      | [] => Point Undefined
      | [p] => Point p
      | p :: q :: body => Polygon [p :: q :: body ++ [p]]
      end.
Proof.
  intros Hg Hpoints Hclosed. unfold Feature.fromFeature.
  rewrite Hg. cbn [get Z.ltb Z.compare Z.to_nat lookup list_lookup].
  eexists. split; [reflexivity|].
  match goal with |- geometry (Feature.toFeature ?t) = _ => set (f := t) end.
  assert (Feature.points f = take (length ring - 1) ring) as Hps
    by (subst f; unfold Feature.new; simpl; rewrite Hpoints; simpl;
        apply slice_without_last).
  assert (Feature.isClosed f = Some true) as Hshut
    by (subst f; unfold Feature.new; simpl; by rewrite Hclosed).
  clearbody f.
  destruct (take (length ring - 1) ring) as [|p [|q body]] eqn:Hring.
  - rewrite toFeature_single; rewrite Hps; simpl; [done|lia].
  - rewrite toFeature_single; rewrite Hps; simpl; [done|lia].
  - rewrite (toFeature_closed f p q body) by done. by rewrite Hps.
Qed.

End Hydration.

(** ** [Feature]: how the vertex operations compose *)

Section Composition.
Implicit Types (f : Feature.t) (p q pt : position) (index : Z).

(** No operation reorders the vertices.  [removePoint] leaves a
    subsequence of them, one shorter when it returns [true]; [addPoint]
    and [insertPoint] leave them as a subsequence of the new ones, one
    longer when they return [true]. *)
Theorem vertex_order_kept f index pt :
  (Feature.points (snd (Feature.removePoint index f))
     `sublist_of` Feature.points f ∧
   length (Feature.points (snd (Feature.removePoint index f)))
   = if fst (Feature.removePoint index f)
     then (length (Feature.points f) - 1)%nat
     else length (Feature.points f)) ∧
  (Feature.points f
     `sublist_of` Feature.points (snd (Feature.addPoint pt f)) ∧
   length (Feature.points (snd (Feature.addPoint pt f)))
   = S (length (Feature.points f))) ∧
  (Feature.points f
     `sublist_of` Feature.points (snd (Feature.insertPoint index f)) ∧
   length (Feature.points (snd (Feature.insertPoint index f)))
   = if fst (Feature.insertPoint index f)
     then S (length (Feature.points f))
     else length (Feature.points f)).
Proof.
  split_and!.
  - rewrite removePoint_spec. case_bool_decide; simpl; [|done].
    apply sublist_delete.
  - rewrite removePoint_spec. unfold in_range.
    case_bool_decide as Hr; simpl; [|done].
    rewrite length_delete; [lia|]. apply lookup_lt_is_Some. lia.
  - simpl. by apply sublist_inserts_r.
  - simpl. rewrite length_app. simpl. lia.
  - rewrite insertPoint_spec. destruct (_ && _); simpl; [|done].
    rewrite <-(take_drop (Z.to_nat index) (Feature.points f)) at 1.
    apply sublist_app; [done|]. by apply sublist_cons.
  - rewrite insertPoint_spec. destruct (_ && _); simpl; [|done].
    rewrite length_app, length_take, length_cons, length_drop. lia.
Qed.

(** [replacePoint] touches one vertex: the number of vertices and every
    vertex at another index stay, and [isClosed] stays.  Replacing the
    same vertex twice is replacing it with the second position. *)
Theorem replacePoint_local f index pt q :
  length (Feature.points (snd (Feature.replacePoint index pt f)))
  = length (Feature.points f) ∧
  (∀ j, j ≠ Z.to_nat index →
     Feature.points (snd (Feature.replacePoint index pt f)) !! j
     = Feature.points f !! j) ∧
  Feature.isClosed (snd (Feature.replacePoint index pt f))
  = Feature.isClosed f ∧
  Feature.replacePoint index q (snd (Feature.replacePoint index pt f))
  = Feature.replacePoint index q f.
Proof.
  destruct (decide (in_range index f)) as [Hr|Hr].
  - assert (Feature.replacePoint index pt f
            = (true,
               reshaped (<[Z.to_nat index := pt]> (Feature.points f))
                 (Feature.isClosed f) f)) as ->
      by (by rewrite replacePoint_spec, bool_decide_eq_true_2).
    cbn [snd reshaped Feature.points Feature.isClosed].
    rewrite length_insert. split_and!; try done.
    + intros j Hj. by rewrite list_lookup_insert_ne.
    + rewrite !replacePoint_spec. unfold in_range in *. simpl.
      rewrite length_insert, !bool_decide_eq_true_2 by done.
      unfold reshaped. simpl. by rewrite list_insert_insert_eq.
  - assert (Feature.replacePoint index pt f = (false, f)) as ->
      by (by rewrite replacePoint_spec, bool_decide_eq_false_2).
    done.
Qed.

(** [removePoint] undoes [insertPoint] at the same index, and [addPoint]
    at the last one: the vertices are those before.  [isClosed] is the one
    before when there are three vertices or more, and [false] otherwise,
    also where it was [undefined]. *)
Theorem removePoint_undoes f index pt :
  (fst (Feature.insertPoint index f) = true →
   Feature.removePoint index (snd (Feature.insertPoint index f))
   = (true,
      reshaped (Feature.points f)
        (if bool_decide (length (Feature.points f) < 3)%nat then Some false
         else Feature.isClosed f) f)) ∧
  Feature.removePoint (Z.of_nat (length (Feature.points f)))
    (snd (Feature.addPoint pt f))
  = (true,
     reshaped (Feature.points f)
       (if bool_decide (length (Feature.points f) < 3)%nat then Some false
        else Feature.isClosed f) f).
Proof.
  split.
  - rewrite insertPoint_spec.
    destruct (defined (vertex index f)) eqn:Hp; simpl; [|done].
    destruct (defined (vertex (predecessor index f) f)); simpl; [|done].
    intros _. apply vertex_defined in Hp. unfold in_range in Hp.
    rewrite removePoint_spec. unfold in_range. simpl.
    assert (length (take (Z.to_nat index) (Feature.points f))
            = Z.to_nat index) as Hlen by (rewrite length_take; lia).
    rewrite bool_decide_eq_true_2; last first.
    { rewrite length_app, Hlen, length_cons, length_drop. lia. }
    assert (delete (Z.to_nat index)
              (take (Z.to_nat index) (Feature.points f)
                 ++ Feature.midpoint (vertex index f)
                      (vertex (predecessor index f) f)
                 :: drop (Z.to_nat index) (Feature.points f))
            = Feature.points f) as ->.
    { rewrite <-Hlen at 1. rewrite delete_middle. apply take_drop. }
    done.
  - rewrite removePoint_spec. unfold in_range. simpl.
    rewrite bool_decide_eq_true_2 by (rewrite length_app; simpl; lia).
    rewrite Nat2Z.id.
    assert (delete (length (Feature.points f)) (Feature.points f ++ [pt])
            = Feature.points f) as ->.
    { rewrite delete_middle. apply app_nil_r. }
    done.
Qed.

(** A closed triangle that loses a vertex is an open line of two
    vertices: it is exported as a [LineString], and [closePath] refuses to
    close it again. *)
Theorem triangle_opens f index :
  length (Feature.points f) = 3%nat →
  in_range index f →
  fst (Feature.removePoint index f) = true ∧
  Feature.isClosed (snd (Feature.removePoint index f)) = Some false ∧
  geometry (Feature.toFeature (snd (Feature.removePoint index f)))
  = LineString (delete (Z.to_nat index) (Feature.points f)) ∧
  Feature.closePath (snd (Feature.removePoint index f))
  = (false, snd (Feature.removePoint index f)).
Proof.
  intros Hlen Hr. rewrite removePoint_spec, bool_decide_eq_true_2 by done.
  assert (length (delete (Z.to_nat index) (Feature.points f)) = 2%nat)
    as Hlen'.
  { rewrite length_delete; [lia|]. apply lookup_lt_is_Some.
    unfold in_range in Hr. lia. }
  cbn [fst snd]. rewrite bool_decide_eq_true_2 by lia.
  split_and!; try done.
  - rewrite toFeature_open; simpl; [done|lia|done].
  - rewrite closePath_spec. simpl. by rewrite bool_decide_eq_false_2 by lia.
Qed.

End Composition.

(** ** Handlers: closing a path, and the clicks that draw *)

Section Drawing.
Implicit Types (s : State) (props : Props) (viewport : Viewport).
Implicit Types (f : Feature.t) (fs : list Feature.t).

Lemma strict_eq_refl_l (a b : value) :
  strict_eq a b = true → strict_eq a a = true.
Proof.
  destruct a as [| |x|[|x]|x], b as [| |y|[|y]|y]; simpl; try done.
  - intros _. by destruct x.
  - intros _. apply Qeq_bool_iff. reflexivity.
  - intros _. apply String.eqb_refl.
Qed.

Lemma strict_eq_of_Z (n : Z) :
  strict_eq (numeric (of_Z n)) (numeric (of_Z n)) = true.
Proof. simpl. apply Qeq_bool_iff. reflexivity. Qed.

Lemma findIndex_last {A} (p : A → bool) (l : list A) a :
  (∀ b, b ∈ l → p b = false) → p a = true →
  findIndex p (l ++ [a]) = Some (length l).
Proof.
  intros Hl Hp. induction l as [|b l IH]; simpl.
  - by rewrite Hp.
  - rewrite (Hl b) by apply list_elem_of_here.
    rewrite IH; [done|]. intros c Hc. apply Hl. by apply list_elem_of_further.
Qed.

Lemma closePath_selected s i f :
  selected (selectedId s) (features s) = Some i →
  features s !! i = Some f →
  _closePath s =
  Returns (tt,
    showing (<[i := snd (Feature.closePath f)]> (features s)) (selectedId s) s,
    [onUpdate
       (Feature.toFeature <$> <[i := snd (Feature.closePath f)]> (features s));
     onSelect (Feature.id f)]).
Proof.
  intros Hsel Hf. unfold _closePath.
  rewrite (bind_pure _ _ _ _ _ (getSelectedFeature_eq s)).
  unfold selected in Hsel. rewrite Hsel.
  rewrite (bind_pure _ _ _ _ _ (invoke_held _ s i f Hf)).
  unfold getState, _update, call, deref, mbind, M_bind. cbn [features].
  rewrite list_lookup_insert_eq by (by eapply lookup_lt_Some).
  rewrite closePath_spec. by case_bool_decide.
Qed.

(** [_closePath] does not look at what [closePath] returns.  With a
    feature selected it calls [onUpdate], with the export of all the
    features, and [onSelect], with the id of the selected one, whether the
    path could be closed or not: with fewer than three vertices the feature
    is exported as it was.  With no feature selected it raises. *)
Theorem closePath_commits_anyway s :
  (selected (selectedId s) (features s) = None → _closePath s = Throws) ∧
  (∀ i f,
     selected (selectedId s) (features s) = Some i →
     features s !! i = Some f →
     let f' := if bool_decide (3 ≤ length (Feature.points f))%nat
               then reshaped (Feature.points f) (Some true) f else f in
     _closePath s =
     Returns (tt, showing (<[i := f']> (features s)) (selectedId s) s,
              [onUpdate (Feature.toFeature <$> <[i := f']> (features s));
               onSelect (Feature.id f)])).
Proof.
  split.
  - intros Hsel. unfold _closePath.
    rewrite (bind_pure _ _ _ _ _ (getSelectedFeature_eq s)).
    unfold selected in Hsel. by rewrite Hsel.
  - intros i f Hsel Hf. rewrite (closePath_selected s i f Hsel Hf).
    rewrite closePath_spec. by case_bool_decide.
Qed.

End Drawing.

Section Clicks.
Implicit Types (s : State) (props : Props) (viewport : Viewport).
Implicit Types (f : Feature.t) (fs : list Feature.t).
Implicit Types (evt : DrawControl.MouseEvent).

Lemma deref_held s i f :
  features s !! i = Some f → deref (held i) s = Returns (f, s, []).
Proof. intros Hf. unfold deref. by rewrite Hf. Qed.

Lemma click_extends props viewport x y now s i f :
  mode props = DRAW_PATH ∨ mode props = DRAW_POLYGON →
  selected (selectedId s) (features s) = Some i →
  features s !! i = Some f →
  Feature.isClosed f ≠ Some true →
  click props viewport x y now s =
  let f' := extended (unprojected viewport (x, y)) f in
  if bool_decide (mode props = DRAW_PATH ∧ Feature.points f ≠ []) then
    Returns (tt, showing (<[i := f']> (features s)) (selectedId s) s,
             [onUpdate (Feature.toFeature <$> <[i := f']> (features s));
              onSelect (Feature.id f)])
  else Returns (tt, showing (<[i := f']> (features s)) (Feature.id f) s, []).
Proof.
  intros Hmode Hsel Hf Hopen. unfold click.
  rewrite (bind_pure _ _ _ _ _ (getSelectedFeature_eq s)).
  pose proof Hsel as Hsel'. unfold selected in Hsel'. rewrite Hsel'.
  assert ((f0 ← deref (held i);
           if default false (Feature.isClosed f0) then call (onSelect null)
           else _addPoint props viewport x y (held i)) s
          = _addPoint props viewport x y (held i) s) as Hstep.
  { rewrite (bind_pure _ _ _ _ _ (deref_held s i f Hf)).
    by destruct (Feature.isClosed f) as [[]|]. }
  assert (known (extended (unprojected viewport (x, y)) f)
            (<[i := extended (unprojected viewport (x, y)) f]> (features s))
          = true) as Hknown.
  { apply bool_decide_eq_true_2.
    apply findIndex_Some in Hsel' as (g & Hg & Hid).
    rewrite Hf in Hg. injection Hg as <-.
    eapply (findIndex_is_Some _ _ i).
    - apply list_lookup_insert_eq. by eapply lookup_lt_Some.
    - simpl. by eapply strict_eq_refl_l. }
  assert (commits props (extended (unprojected viewport (x, y)) f)
          = bool_decide (mode props = DRAW_PATH ∧ Feature.points f ≠ []))
    as Hcommits.
  { unfold commits, extended. simpl. rewrite length_app. simpl.
    destruct Hmode as [Hm | Hm]; rewrite Hm;
      destruct (Feature.points f); simpl;
      repeat case_bool_decide; simpl in *; try done; try lia; naive_solver. }
  assert (_addPoint props viewport x y (held i) s
          = let f' := extended (unprojected viewport (x, y)) f in
            if bool_decide (mode props = DRAW_PATH ∧ Feature.points f ≠ [])
            then
              Returns (tt, showing (<[i := f']> (features s)) (selectedId s) s,
                [onUpdate (Feature.toFeature <$> <[i := f']> (features s));
                 onSelect (Feature.id f)])
            else
              Returns (tt, showing (<[i := f']> (features s)) (Feature.id f) s,
                [])) as Hadd.
  { rewrite (addPoint_spec props viewport x y (held i) f s (deref_held s i f Hf)).
    change (snd (Feature.addPoint (unprojected viewport (x, y)) f))
      with (extended (unprojected viewport (x, y)) f).
    cbn [stored]. rewrite Hknown, Hcommits. reflexivity. }
  destruct Hmode as [Hm | Hm]; rewrite Hm in *; rewrite Hstep; exact Hadd.
Qed.

Lemma click_starts props viewport x y now s :
  mode props = DRAW_PATH ∨ mode props = DRAW_POLYGON →
  selected (selectedId s) (features s) = None →
  click props viewport x y now s =
  let f0 := started viewport (MODE_TO_TYPE (mode props)) (x, y) now in
  Returns (tt,
    showing (if known f0 (features s) then features s else features s ++ [f0])
      (numeric (of_Z now)) s, []).
Proof.
  intros Hmode Hsel. unfold click.
  rewrite (bind_pure _ _ _ _ _ (getSelectedFeature_eq s)).
  unfold selected in Hsel. rewrite Hsel. unfold _addFeature.
  assert (∀ type,
    _addPoint props viewport x y
      (fresh (Feature.new
         {| key_id := Some (numeric (of_Z now)); key_type := Some type;
            key_points := None; key_isClosed := None;
            rest := {[ "renderType" := type ]} |})) s
    = let f0 := started viewport type (x, y) now in
      Returns (tt,
        showing (if known f0 (features s) then features s
                 else features s ++ [f0]) (numeric (of_Z now)) s, []))
    as Hadd.
  { intros type.
    rewrite (addPoint_spec props viewport x y (fresh _) _ s eq_refl).
    cbn [stored]. unfold commits.
    destruct Hmode as [-> | ->]; reflexivity. }
  destruct Hmode as [Hm | Hm]; rewrite Hm in *; apply Hadd.
Qed.

(** A click on the canvas in [DRAW_PATH] or [DRAW_POLYGON] mode.  With a
    closed feature selected it calls [onSelect(null)] and nothing else.
    With an open one it adds the unprojected position to that very
    feature, in place: no feature is added.  In [DRAW_POLYGON] mode this
    calls nothing of the host, however many vertices there are; in
    [DRAW_PATH] mode it calls [onUpdate] and [onSelect] as soon as the
    feature had a vertex before. *)
Theorem click_on_selection props viewport x y now s i f :
  mode props = DRAW_PATH ∨ mode props = DRAW_POLYGON →
  selected (selectedId s) (features s) = Some i →
  features s !! i = Some f →
  (Feature.isClosed f = Some true →
   click props viewport x y now s = Returns (tt, s, [onSelect null])) ∧
  (Feature.isClosed f ≠ Some true →
   click props viewport x y now s =
   let f' := extended (unprojected viewport (x, y)) f in
   if bool_decide (mode props = DRAW_PATH ∧ Feature.points f ≠ []) then
     Returns (tt, showing (<[i := f']> (features s)) (selectedId s) s,
              [onUpdate (Feature.toFeature <$> <[i := f']> (features s));
               onSelect (Feature.id f)])
   else
     Returns (tt, showing (<[i := f']> (features s)) (Feature.id f) s, [])).
Proof.
  intros Hmode Hsel Hf. split; [|by apply click_extends].
  intros Hclosed. unfold click.
  rewrite (bind_pure _ _ _ _ _ (getSelectedFeature_eq s)).
  unfold selected in Hsel. rewrite Hsel.
  assert ((f0 ← deref (held i);
           if default false (Feature.isClosed f0) then call (onSelect null)
           else _addPoint props viewport x y (held i)) s
          = Returns (tt, s, [onSelect null])) as Hstep.
  { rewrite (bind_pure _ _ _ _ _ (deref_held s i f Hf)). by rewrite Hclosed. }
  destruct Hmode as [Hm | Hm]; rewrite Hm; exact Hstep.
Qed.

(** A click on the canvas in [DRAW_PATH] or [DRAW_POLYGON] mode with no
    feature selected starts a feature of the type of the mode, with the
    time as its id and the unprojected position as its only vertex, puts
    it last and selects it; the host is not called.  When a feature has
    that id already, the new one is dropped, and the click selects the
    one there is. *)
Theorem click_starts_feature props viewport x y now s :
  mode props = DRAW_PATH ∨ mode props = DRAW_POLYGON →
  selected (selectedId s) (features s) = None →
  ∃ s',
    click props viewport x y now s = Returns (tt, s', []) ∧
    selectedId s' = numeric (of_Z now) ∧
    gesture s' = gesture s ∧
    ((∀ g, g ∈ features s →
        strict_eq (Feature.id g) (numeric (of_Z now)) = false) →
     features s' =
       features s
         ++ [started viewport (MODE_TO_TYPE (mode props)) (x, y) now]) ∧
    ((∃ g, g ∈ features s ∧
           strict_eq (Feature.id g) (numeric (of_Z now)) = true) →
     features s' = features s).
Proof.
  intros Hmode Hsel. rewrite click_starts by done.
  eexists. split; [reflexivity|]. split_and!; try done.
  - intros Hfresh. cbn [showing features]. unfold known.
    rewrite bool_decide_eq_false_2; [done|].
    intros [n Hn]. apply findIndex_Some in Hn as (g & Hg & Hid).
    apply list_elem_of_lookup_2 in Hg. specialize (Hfresh g Hg).
    simpl in Hid. congruence.
  - intros (g & Hg & Hid). cbn [showing features]. unfold known.
    rewrite bool_decide_eq_true_2; [done|].
    apply list_elem_of_lookup_1 in Hg as [i Hi].
    by eapply findIndex_is_Some.
Qed.

End Clicks.

(** ** Handlers: a line and a polygon, from the first click on *)

Section Shapes.
Implicit Types (s : State) (props : Props) (viewport : Viewport).
Implicit Types (f : Feature.t) (fs : list Feature.t).
Implicit Types (evt : DrawControl.MouseEvent).

Lemma onBeforeClick_open props viewport evt now s :
  gate_open props → didDrag s = false →
  DrawControl._onEvent props viewport (DrawControl.onBeforeClick evt now) s
  = click props viewport (DrawControl.clientX evt) (DrawControl.clientY evt)
      now s.
Proof.
  intros Hgate Hd. rewrite onEvent_open by done. cbn [DrawControl.handle].
  unfold DrawControl._onBeforeClick.
  rewrite (bind_pure getState _ s s s eq_refl), Hd. reflexivity.
Qed.

Lemma insert_last {A} (l : list A) (a b : A) :
  <[length l := b]> (l ++ [a]) = l ++ [b].
Proof. induction l as [|c l IH]; simpl; [done|]. by rewrite IH. Qed.

Lemma drawing_selected fs f s :
  drawing fs f s →
  selected (selectedId s) (features s) = Some (length fs) ∧
  features s !! length fs = Some f.
Proof.
  intros (Hfs & Hsel & Hrefl & Hfresh). rewrite Hfs, Hsel. split.
  - unfold selected. by apply findIndex_last.
  - by apply list_lookup_middle.
Qed.

Lemma drawing_start props viewport x y now s :
  mode props = DRAW_PATH ∨ mode props = DRAW_POLYGON →
  selected (selectedId s) (features s) = None →
  (∀ g, g ∈ features s →
     strict_eq (Feature.id g) (numeric (of_Z now)) = false) →
  ∃ s',
    click props viewport x y now s = Returns (tt, s', []) ∧
    drawing (features s)
      (started viewport (MODE_TO_TYPE (mode props)) (x, y) now) s' ∧
    gesture s' = gesture s.
Proof.
  intros Hmode Hsel Hfresh. rewrite click_starts by done.
  eexists. split; [reflexivity|]. split; [|done].
  unfold drawing. cbn [showing features selectedId started Feature.id].
  split_and!; [|done|apply strict_eq_of_Z|done].
  unfold known. rewrite bool_decide_eq_false_2; [done|].
  intros [n Hn]. apply findIndex_Some in Hn as (g & Hg & Hid).
  apply list_elem_of_lookup_2 in Hg. specialize (Hfresh g Hg).
  simpl in Hid. congruence.
Qed.

Lemma drawing_continue props viewport x y now fs f s :
  mode props = DRAW_POLYGON →
  drawing fs f s →
  Feature.isClosed f ≠ Some true →
  ∃ s',
    click props viewport x y now s = Returns (tt, s', []) ∧
    drawing fs (extended (unprojected viewport (x, y)) f) s' ∧
    gesture s' = gesture s.
Proof.
  intros Hmode Hdraw Hopen.
  destruct (drawing_selected _ _ _ Hdraw) as [Hsel Hf].
  rewrite (click_extends props viewport x y now s (length fs) f)
    by (done || by right).
  cbv zeta. rewrite bool_decide_eq_false_2
    by (rewrite Hmode; by intros [? _]).
  eexists. split; [reflexivity|]. split; [|done].
  destruct Hdraw as (Hfs & _ & Hrefl & Hfresh).
  unfold drawing. cbn [showing features selectedId extended reshaped Feature.id].
  rewrite Hfs, insert_last. done.
Qed.

Lemma polygon_clicks props viewport
  (more : list (DrawControl.MouseEvent * Z)) :
  gate_open props → mode props = DRAW_POLYGON →
  ∀ fs f s,
    drawing fs f s → Feature.isClosed f ≠ Some true → didDrag s = false →
    ∃ s',
      DrawControl.run props viewport
        ((λ e, DrawControl.onBeforeClick e.1 e.2) <$> more) s
      = Returns (tt, s', []) ∧
      drawing fs
        (reshaped
           (Feature.points f
              ++ ((λ e, unprojected viewport
                          (DrawControl._getEventPosition e.1)) <$> more))
           (Feature.isClosed f) f) s' ∧
      didDrag s' = false.
Proof.
  intros Hgate Hmode. induction more as [|[evt now] more IH];
    intros fs f s Hdraw Hopen Hd.
  - exists s. split; [done|]. split; [|done].
    simpl. rewrite app_nil_r. by destruct f.
  - destruct (drawing_continue props viewport (DrawControl.clientX evt)
      (DrawControl.clientY evt) now fs f s Hmode Hdraw Hopen)
      as (s1 & Hclick & Hdraw1 & Hg1).
    assert (didDrag s1 = false) as Hd1
      by (unfold gesture in Hg1; congruence).
    destruct (IH fs _ s1 Hdraw1 Hopen Hd1) as (s' & Hrun & Hdraw' & Hd').
    exists s'. split; [|split; [|done]].
    + rewrite fmap_cons.
      rewrite (run_cons _ _ _ _ _ s1 []); [by rewrite Hrun|].
      by rewrite onBeforeClick_open.
    + rewrite fmap_cons. cbn [fst].
      cbn [extended reshaped Feature.points Feature.isClosed] in Hdraw'.
      rewrite <-app_assoc in Hdraw'. exact Hdraw'.
Qed.

(** Two clicks on the canvas in [DRAW_PATH] mode, with nothing selected
    and at a time that is no id yet: the first calls nothing, the second
    calls [onUpdate] with the features there were followed by a
    [LineString] through the two unprojected positions, and [onSelect]
    with the time of the first click.  The line stays selected and open,
    so that a further click extends it. *)
Theorem line_in_two_clicks props viewport s evt1 now1 evt2 now2 :
  mode props = DRAW_PATH →
  didDrag s = false →
  selected (selectedId s) (features s) = None →
  (∀ g, g ∈ features s →
     strict_eq (Feature.id g) (numeric (of_Z now1)) = false) →
  let p1 := unprojected viewport (DrawControl._getEventPosition evt1) in
  let p2 := unprojected viewport (DrawControl._getEventPosition evt2) in
  ∃ s',
    DrawControl.run props viewport
      [DrawControl.onBeforeClick evt1 now1;
       DrawControl.onBeforeClick evt2 now2] s
    = Returns (tt, s',
        [onUpdate
           ((Feature.toFeature <$> features s)
              ++ [lineString [p1; p2]
                    {| key_id := Some (numeric (of_Z now1));
                       key_type := None; key_points := None;
                       key_isClosed := None;
                       rest := {[ "renderType" := text "LineString" ]} |}]);
         onSelect (numeric (of_Z now1))]) ∧
    drawing (features s)
      {| Feature.id := numeric (of_Z now1);
         Feature.type := text "LineString";
         Feature.points := [p1; p2]; Feature.isClosed := None;
         Feature.otherProps := {[ "renderType" := text "LineString" ]} |} s'.
Proof.
  intros Hmode Hd Hsel Hfresh p1 p2.
  assert (gate_open props) as Hgate by (unfold gate_open; by rewrite Hmode).
  destruct (drawing_start props viewport (DrawControl.clientX evt1)
    (DrawControl.clientY evt1) now1 s (or_introl Hmode) Hsel Hfresh)
    as (s1 & Hclick1 & Hdraw1 & Hg1).
  assert (didDrag s1 = false) as Hd1 by (unfold gesture in Hg1; congruence).
  destruct (drawing_selected _ _ _ Hdraw1) as [Hsel1 Hf1].
  rewrite Hmode in *. cbn [MODE_TO_TYPE] in *.
  eexists.
  rewrite (run_cons _ _ _ _ _ s1 [])
    by (by rewrite onBeforeClick_open).
  cbn [DrawControl.run].
  rewrite (bind_Returns _ _ s1 tt _ _
    ltac:(rewrite onBeforeClick_open by done;
          rewrite (click_extends _ viewport _ _ now2 s1 _ _
                     (or_introl Hmode) Hsel1 Hf1) by done;
          cbv zeta; rewrite bool_decide_eq_true_2 by done; reflexivity)).
  cbn [mret M_ret app].
  destruct Hdraw1 as (Hfs1 & Hsel1' & Hrefl & Hfresh1).
  rewrite Hfs1, insert_last, fmap_app. split; [reflexivity|].
  unfold drawing. cbn [showing features selectedId Feature.id].
  by rewrite Hsel1'.
Qed.

(** A polygon in [DRAW_POLYGON] mode, with nothing selected and at a time
    that is no id yet: a first click, two further clicks or more, and a
    press on the first vertex as [_renderCurrent] binds it.  The clicks
    call nothing of the host.  The press calls [onUpdate] with the
    features there were followed by a [Polygon] whose ring is the
    unprojected positions in the order of the clicks and the first one
    again, and [onSelect] with the time of the first click. *)
Theorem polygon_in_clicks_and_a_press props viewport s evt1 now1
  (more : list (DrawControl.MouseEvent * Z)) evt :
  mode props = DRAW_POLYGON →
  didDrag s = false →
  selected (selectedId s) (features s) = None →
  (∀ g, g ∈ features s →
     strict_eq (Feature.id g) (numeric (of_Z now1)) = false) →
  (2 ≤ length more)%nat →
  let p1 := unprojected viewport (DrawControl._getEventPosition evt1) in
  let ring :=
    p1 :: ((λ e, unprojected viewport (DrawControl._getEventPosition e.1))
             <$> more) in
  let open :=
    {| Feature.id := numeric (of_Z now1); Feature.type := text "Polygon";
       Feature.points := ring; Feature.isClosed := None;
       Feature.otherProps := {[ "renderType" := text "Polygon" ]} |} in
  ∃ s1 g s2,
    DrawControl.run props viewport
      (DrawControl.onBeforeClick evt1 now1
         :: ((λ e, DrawControl.onBeforeClick e.1 e.2) <$> more)) s
    = Returns (tt, s1, []) ∧
    drawing (features s) open s1 ∧
    DrawControl._renderCurrent props open !! O = Some g ∧
    DrawControl._onEvent props viewport
      (DrawControl.group_onMouseDown g evt) s1
    = Returns (tt, s2,
        [onUpdate
           ((Feature.toFeature <$> features s)
              ++ [polygon [ring ++ [p1]]
                    {| key_id := Some (numeric (of_Z now1));
                       key_type := None; key_points := None;
                       key_isClosed := Some (Some true);
                       rest := {[ "renderType" := text "Polygon" ]} |}]);
         onSelect (numeric (of_Z now1))]) ∧
    features s2 = features s ++ [reshaped ring (Some true) open].
Proof.
  intros Hmode Hd Hsel Hfresh Hmore p1 ring open.
  assert (gate_open props) as Hgate by (unfold gate_open; by rewrite Hmode).
  destruct (drawing_start props viewport (DrawControl.clientX evt1)
    (DrawControl.clientY evt1) now1 s (or_intror Hmode) Hsel Hfresh)
    as (s0 & Hclick1 & Hdraw0 & Hg0).
  assert (didDrag s0 = false) as Hd0 by (unfold gesture in Hg0; congruence).
  rewrite Hmode in Hdraw0. cbn [MODE_TO_TYPE] in Hdraw0.
  destruct (polygon_clicks props viewport more Hgate Hmode _ _ s0 Hdraw0
    ltac:(done) Hd0) as (s1 & Hrun & Hdraw1 & Hd1).
  assert (drawing (features s) open s1) as Hopen1 by exact Hdraw1.
  clear Hdraw1.
  destruct (drawing_selected _ _ _ Hopen1) as [Hsel1 Hf1].
  destruct more as [|e1 [|e2 more]]; [simpl in Hmore; lia..|].
  assert (DrawControl._renderCurrent props open !! O
          = Some
              {| DrawControl.group_onMouseDown :=
                   λ evt0, DrawControl.onClickVertex evt0 0 INTERSECT;
                 DrawControl.vertex_onClick :=
                   λ evt0, DrawControl.onClickVertex evt0 0 INTERSECT |})
    as Hrender.
  { unfold DrawControl._renderCurrent. rewrite list_lookup_imap.
    rewrite Hmode. reflexivity. }
  eexists s1, _, _. split_and!.
  - rewrite (run_cons _ _ _ _ _ s0 []); [by rewrite Hrun|].
    by rewrite onBeforeClick_open.
  - done.
  - exact Hrender.
  - cbn [DrawControl.group_onMouseDown].
    rewrite onEvent_open by done. cbn [DrawControl.handle].
    unfold _onClickVertex. rewrite bool_decide_eq_true_2 by done.
    rewrite (closePath_selected s1 _ _ Hsel1 Hf1).
    destruct Hopen1 as (Hfs1 & _ & _ & _).
    rewrite Hfs1, insert_last, fmap_app.
    rewrite closePath_spec, bool_decide_eq_true_2 by (simpl; lia).
    cbn [snd fmap list_fmap].
    erewrite toFeature_closed; [reflexivity | reflexivity | reflexivity].
  - reflexivity.
Qed.

End Shapes.

(** ** Handlers: the gate of [_onEvent] and the selection by click *)

Section Gates.
Implicit Types (s : State) (props : Props) (viewport : Viewport).

(** The first class.  In [READ_ONLY] mode no sequence of events changes
    the state or calls the host.  In [SELECT] mode none changes the state,
    and the calls are one [onSelect] for each click on a feature, with its
    id.  A click on the element of a feature, as the document delivers it,
    does nothing in [READ_ONLY] mode; in [SELECT] mode, and in the other
    modes while no feature is selected, it calls [onSelect] with the id of
    the feature and stops there; in the other modes with a feature
    selected it is not stopped, and is handled as a click on the canvas. *)
Theorem gate_first_class props viewport s :
  (∀ events, mode props = READ_ONLY →
     DrawControl.run props viewport events s = Returns (tt, s, [])) ∧
  (∀ events, mode props = SELECT →
     DrawControl.run props viewport events s
     = Returns (tt, s, omap selects events)) ∧
  (∀ evt feature now,
     DrawControl.clickFeature props viewport evt feature now s =
     if bool_decide (mode props = READ_ONLY) then Returns (tt, s, [])
     else if bool_decide (mode props = SELECT) || negb (truthy (selectedId s))
     then Returns (tt, s, [onSelect (Feature.id feature)])
     else DrawControl._onEvent props viewport
            (DrawControl.onBeforeClick evt now) s).
Proof.
  split_and!.
  - intros events Hmode. induction events as [|e events IH]; [done|].
    rewrite (run_cons _ _ _ _ _ s []); [by rewrite IH|].
    unfold DrawControl._onEvent. by rewrite Hmode.
  - intros events Hmode. induction events as [|e events IH]; [done|].
    rewrite (run_cons _ _ _ _ _ s (option_list (selects e))).
    + rewrite IH. simpl. by destruct (selects e).
    + unfold DrawControl._onEvent. rewrite Hmode.
      destruct e; try done. simpl.
      unfold DrawControl._onClickFeature, mbind, M_bind, getState.
      by rewrite Hmode.
  - intros evt feature now. unfold DrawControl.clickFeature.
    rewrite (bind_pure getState _ s s s eq_refl).
    destruct (decide (mode props = READ_ONLY)) as [Hr|Hr].
    { rewrite !(bool_decide_eq_true_2 _ Hr). cbn [orb].
      rewrite (bind_pure _ _ s tt s); [done|].
      unfold DrawControl._onEvent. by rewrite (bool_decide_eq_true_2 _ Hr). }
    rewrite !(bool_decide_eq_false_2 _ Hr). cbn [orb].
    assert (DrawControl._onEvent props viewport
              (DrawControl.onClickFeature evt feature) s
            = Returns (tt, s,
                if bool_decide (mode props = SELECT)
                   || negb (truthy (selectedId s))
                then [onSelect (Feature.id feature)] else [])) as Hfirst.
    { unfold DrawControl._onEvent. rewrite (bool_decide_eq_false_2 _ Hr).
      cbn [DrawControl.is_onClickFeature negb andb orb].
      rewrite andb_false_r. cbn [DrawControl.handle].
      unfold DrawControl._onClickFeature, mbind, M_bind, getState.
      by destruct (_ || _). }
    destruct (bool_decide (mode props = SELECT)
              || negb (truthy (selectedId s))).
    + by rewrite (bind_Returns _ _ _ _ _ _ Hfirst).
    + by rewrite (bind_pure _ _ _ _ _ Hfirst).
Qed.

(** The second class.  In [READ_ONLY] and in [SELECT_FEATURE] mode no
    sequence of events changes the state or calls the host: the four
    handlers on the event manager are stopped alike, the click on a feature
    with them.  In the other modes a click on a feature element calls
    [onSelect] with the id of the feature at that index when the mode is
    [EDIT_VERTEX] or no feature is selected, raises when there is no
    feature at that index, and is ignored otherwise. *)
Theorem gate_second_class props viewport s :
  (∀ events, mode props = READ_ONLY ∨ mode props = SELECT_FEATURE →
     DrawControl2.run props viewport events s = Returns (tt, s, [])) ∧
  (∀ id offset now, gate_open2 props →
     DrawControl2._onEvent props viewport
       (DrawControl2.onClick
          {| DrawControl2.type := "anyclick";
             DrawControl2.target := DrawControl2.featureElement id;
             DrawControl2.offsetCenter := offset |} now) s
     = if bool_decide (mode props = EDIT_VERTEX) || negb (truthy (selectedId s))
       then
         match get (features s) id with
         | Some f => Returns (tt, s, [onSelect (Feature.id f)])
         | None => Throws
         end
       else Returns (tt, s, [])).
Proof.
  split.
  - intros events Hmode. induction events as [|e events IH]; [done|].
    simpl. rewrite (bind_pure _ _ s tt s); [exact IH|].
    unfold DrawControl2._onEvent. by destruct Hmode as [-> | ->].
  - intros id offset now [Hr Hs]. unfold DrawControl2._onEvent.
    rewrite !bool_decide_eq_false_2 by done. simpl.
    unfold DrawControl2._onClick. simpl.
    unfold DrawControl2._onClickFeature, mbind, M_bind, getState.
    rewrite (bool_decide_eq_false_2 (mode props = SELECT_FEATURE)) by done.
    simpl. destruct (_ || _); [|done].
    by destruct (get (features s) id).
Qed.

End Gates.

(** ** The second class: presses, moves and releases *)

Section SecondClass.
Implicit Types (s : State) (props : Props) (viewport : Viewport).
Implicit Types (evt : DrawControl2.MjolnirEvent).

Lemma onEvent2_open props viewport handler :
  gate_open2 props →
  DrawControl2._onEvent props viewport handler =
  DrawControl2.handle props viewport handler.
Proof.
  intros [Hr Hs]. unfold DrawControl2._onEvent.
  by rewrite !bool_decide_eq_false_2.
Qed.

Lemma run2_cons props viewport handler events s s1 calls1 :
  DrawControl2._onEvent props viewport handler s = Returns (tt, s1, calls1) →
  DrawControl2.run props viewport (handler :: events) s =
  match DrawControl2.run props viewport events s1 with
  | Returns (b, s2, calls2) => Returns (b, s2, calls1 ++ calls2)
  | Throws => Throws
  end.
Proof. intros H. simpl. by rewrite (bind_Returns _ _ _ _ _ _ H). Qed.

Lemma onMouseUp2_spec evt s :
  DrawControl2._onMouseUp evt s =
  Returns (tt,
    {| features := features s; selectedId := selectedId s;
       draggingVertex := if 0 <=? draggingVertex s then -1
                         else draggingVertex s;
       startDragPos := startDragPos s; isDragging := false;
       didDrag := false |},
    if 0 <=? draggingVertex s
    then [onUpdate (Feature.toFeature <$> features s)] else []).
Proof.
  unfold DrawControl2._onMouseUp, _update.
  unfold mbind, M_bind, mret, M_ret, getState, setState, call. simpl.
  by destruct (0 <=? draggingVertex s).
Qed.

Lemma idle_handle props viewport handler s :
  idle handler = true →
  isDragging s = false → didDrag s = false → draggingVertex s < 0 →
  DrawControl2.handle props viewport handler s = Returns (tt, s, []).
Proof.
  intros Hidle Hd Hdd Hdv. destruct handler as [evt now|evt|evt|evt];
    simpl in *; try done.
  - unfold DrawControl2._onMouseMove. rewrite onMouseMove_spec.
    rewrite Hd. simpl. rewrite orb_false_r.
    destruct s. simpl in *. by subst.
  - unfold DrawControl2._onMouseDown. by destruct (DrawControl2.target evt).
  - rewrite onMouseUp2_spec.
    destruct (Z.leb_spec 0 (draggingVertex s)); [lia|].
    destruct s. simpl in *. by subst.
Qed.

(** In the second class a press starts a gesture only on a vertex.  While
    no vertex drag is under way, presses elsewhere, moves and releases
    change nothing and call nothing: [didDrag] stays [false], whatever the
    distance moved. *)
Theorem second_class_idle props viewport events s :
  forallb idle events = true →
  isDragging s = false → didDrag s = false → draggingVertex s < 0 →
  DrawControl2.run props viewport events s = Returns (tt, s, []).
Proof.
  intros Hidle Hd Hdd Hdv. induction events as [|e events IH]; [done|].
  simpl in Hidle. apply andb_true_iff in Hidle as [He Hevents].
  rewrite (run2_cons _ _ _ _ _ s []); [by rewrite IH|].
  unfold DrawControl2._onEvent. destruct (_ || _); [done|].
  by apply idle_handle.
Qed.

Lemma moves_run2 props viewport origin
  (moves : list DrawControl2.MjolnirEvent) :
  gate_open2 props →
  ∀ s, isDragging s = true → startDragPos s = Some origin →
  ∃ s',
    DrawControl2.run props viewport (DrawControl2.onMouseMove <$> moves) s =
    Returns (tt, s', []) ∧
    features s' =
      foldl (λ fs evt,
               if 0 <=? draggingVertex s
               then dragged viewport (selectedId s) (draggingVertex s) fs
                      (DrawControl2._getEventPosition evt)
               else fs) (features s) moves ∧
    selectedId s' = selectedId s ∧
    draggingVertex s' = draggingVertex s ∧
    didDrag s' =
      didDrag s
      || existsb (λ evt, far origin (DrawControl2._getEventPosition evt)) moves.
Proof.
  intros Hgate. induction moves as [|evt moves IH]; intros s Hd Ho.
  - exists s. simpl. by rewrite orb_false_r.
  - pose proof (onMouseMove_spec viewport
      (fst (DrawControl2._getEventPosition evt))
      (snd (DrawControl2._getEventPosition evt)) s) as Hmove.
    rewrite Hd, Ho in Hmove. simpl in Hmove.
    rewrite <-surjective_pairing in Hmove.
    match type of Hmove with _ = Returns (_, ?t, _) => set (s1 := t) in * end.
    destruct (IH s1 eq_refl eq_refl) as (s' & Hrun & Hf & Hsel & Hdv & Hdd).
    exists s'. split_and!; try done.
    + rewrite fmap_cons.
      rewrite (run2_cons _ _ _ _ _ s1 []); [by rewrite Hrun|].
      by rewrite onEvent2_open.
    + rewrite Hdd. simpl. by rewrite orb_assoc.
Qed.

(** A vertex drag in the second class: a press on a vertex element, moves
    and the release.  The press and the moves call nothing of the host;
    [didDrag] is then [true] exactly when a move was at a squared distance
    above 5 from the press.  Each move calls [replacePoint] at the index of
    the element on the selected feature.  The release calls [onUpdate]
    once, with the export of all the features, and leaves [didDrag] and
    [isDragging] [false] and no vertex dragged. *)
Theorem second_class_vertex_drag props viewport s index operation
  (press : DrawControl2.MjolnirEvent) moves release :
  gate_open2 props →
  0 ≤ index →
  DrawControl2.target press = DrawControl2.vertexElement index operation →
  ∃ s1 s2,
    DrawControl2.run props viewport
      (DrawControl2.onMouseDown press
         :: (DrawControl2.onMouseMove <$> moves)) s
    = Returns (tt, s1, []) ∧
    didDrag s1 =
      existsb (λ evt, far (DrawControl2._getEventPosition press)
                        (DrawControl2._getEventPosition evt)) moves ∧
    features s1 =
      foldl (λ fs evt, dragged viewport (selectedId s) index fs
                         (DrawControl2._getEventPosition evt))
        (features s) moves ∧
    DrawControl2._onEvent props viewport (DrawControl2.onMouseUp release) s1
    = Returns (tt, s2, [onUpdate (Feature.toFeature <$> features s1)]) ∧
    features s2 = features s1 ∧
    draggingVertex s2 = -1 ∧ isDragging s2 = false ∧ didDrag s2 = false.
Proof.
  intros Hgate Hindex Htarget.
  set (s0 := {| features := features s; selectedId := selectedId s;
                draggingVertex := index;
                startDragPos := Some (DrawControl2._getEventPosition press);
                isDragging := true; didDrag := false |}).
  assert (DrawControl2._onEvent props viewport
            (DrawControl2.onMouseDown press) s = Returns (tt, s0, []))
    as Hpress.
  { rewrite onEvent2_open by done. simpl.
    unfold DrawControl2._onMouseDown. by rewrite Htarget. }
  destruct (moves_run2 props viewport _ moves Hgate s0 eq_refl eq_refl)
    as (s1 & Hrun & Hf & _ & Hdv & Hdd).
  simpl in Hf, Hdv, Hdd.
  destruct (Z.leb_spec 0 index) as [_|]; [|lia].
  eexists s1, _. split_and!.
  - rewrite (run2_cons _ _ _ _ _ s0 [] Hpress). by rewrite Hrun.
  - done.
  - done.
  - rewrite onEvent2_open by done. simpl. rewrite onMouseUp2_spec, Hdv.
    destruct (Z.leb_spec 0 index) as [_|]; [|lia]. reflexivity.
  - done.
  - done.
  - done.
  - done.
Qed.

End SecondClass.

(** ** Handlers: what the rendered vertices do *)

Section RenderedVertices.
Implicit Types (s : State) (props : Props) (viewport : Viewport).
Implicit Types (f : Feature.t).

Lemma closePath_closing s k f :
  selected (selectedId s) (features s) = Some k →
  features s !! k = Some f →
  (3 ≤ length (Feature.points f))%nat →
  _closePath s =
  Returns (tt,
    showing (<[k := reshaped (Feature.points f) (Some true) f]> (features s))
      (selectedId s) s,
    [onUpdate
       (Feature.toFeature
          <$> <[k := reshaped (Feature.points f) (Some true) f]> (features s));
     onSelect (Feature.id f)]).
Proof.
  intros Hsel Hf Hlen. rewrite (closePath_selected s k f Hsel Hf).
  by rewrite closePath_spec, bool_decide_eq_true_2.
Qed.

(** A press on vertex [i] of the selected feature, as [_renderCurrent] of
    the first class binds it.  On a closed feature it starts the drag of
    that vertex and calls nothing.  On an open one it closes the path when
    the mode is [DRAW_POLYGON], the vertex is the first and there are three
    vertices or more, and then the feature is closed indeed, and [onUpdate]
    and [onSelect] are called; any other press on a vertex of an open
    feature does nothing. *)
Theorem vertex_press props viewport s k f i g evt :
  gate_open props →
  selected (selectedId s) (features s) = Some k →
  features s !! k = Some f →
  DrawControl._renderCurrent props f !! i = Some g →
  DrawControl._onEvent props viewport (DrawControl.group_onMouseDown g evt) s
  = if bool_decide (Feature.isClosed f = Some true) then
      Returns (tt,
        {| features := features s; selectedId := selectedId s;
           draggingVertex := Z.of_nat i;
           startDragPos := Some (DrawControl._getEventPosition evt);
           isDragging := true; didDrag := false |}, [])
    else if bool_decide (closing props f i) then
      let fs := <[k := reshaped (Feature.points f) (Some true) f]> (features s)
      in
      Returns (tt, showing fs (selectedId s) s,
               [onUpdate (Feature.toFeature <$> fs);
                onSelect (Feature.id f)])
    else Returns (tt, s, []).
Proof.
  intros Hgate Hsel Hf Hg. rewrite onEvent_open by done.
  unfold DrawControl._renderCurrent in Hg. rewrite list_lookup_imap in Hg.
  destruct (Feature.points f !! i) as [p|] eqn:Hp; [|done].
  simpl in Hg. injection Hg as Hg. subst g. unfold closing.
  destruct (Feature.isClosed f) as [[]|] eqn:Hclosed; simpl.
  - done.
  - destruct (decide (mode props = DRAW_POLYGON ∧ i = O
                      ∧ (3 ≤ length (Feature.points f))%nat))
      as [(Hm & Hi & Hlen)|Hno].
    + rewrite bool_decide_eq_true_2 by done.
      rewrite !bool_decide_eq_true_2 by (done || lia). simpl.
      unfold _onClickVertex. simpl. by apply closePath_closing.
    + rewrite (bool_decide_eq_false_2 (_ ∧ _)) by done.
      repeat case_bool_decide; simpl; try done. exfalso. apply Hno.
      split_and!; (done || lia).
  - destruct (decide (mode props = DRAW_POLYGON ∧ i = O
                      ∧ (3 ≤ length (Feature.points f))%nat))
      as [(Hm & Hi & Hlen)|Hno].
    + rewrite bool_decide_eq_true_2 by done.
      rewrite !bool_decide_eq_true_2 by (done || lia). simpl.
      unfold _onClickVertex. simpl. by apply closePath_closing.
    + rewrite (bool_decide_eq_false_2 (_ ∧ _)) by done.
      repeat case_bool_decide; simpl; try done. exfalso. apply Hno.
      split_and!; (done || lia).
Qed.

(** A click on vertex [i] of the selected feature in the second class, on
    the element that [_renderCurrent] draws for it.  It closes the path
    when the feature is open, the mode is [DRAW_POLYGON], the vertex is the
    first and there are three vertices or more; then the feature is closed
    indeed, and [onUpdate] and [onSelect] are called.  Any other click on a
    vertex does nothing, with [didDrag] [true] or [false]. *)
Theorem vertex_click2 props viewport s k f i t offset now :
  gate_open2 props →
  selected (selectedId s) (features s) = Some k →
  features s !! k = Some f →
  DrawControl2._renderCurrent props f !! i = Some t →
  DrawControl2._onEvent props viewport
    (DrawControl2.onClick
       {| DrawControl2.type := "anyclick"; DrawControl2.target := t;
          DrawControl2.offsetCenter := offset |} now) s
  = if bool_decide (Feature.isClosed f ≠ Some true ∧ closing props f i) then
      let fs := <[k := reshaped (Feature.points f) (Some true) f]> (features s)
      in
      Returns (tt, showing fs (selectedId s) s,
               [onUpdate (Feature.toFeature <$> fs);
                onSelect (Feature.id f)])
    else Returns (tt, s, []).
Proof.
  intros Hgate Hsel Hf Ht. rewrite onEvent2_open by done.
  unfold DrawControl2._renderCurrent in Ht. rewrite list_lookup_imap in Ht.
  destruct (Feature.points f !! i) as [p|] eqn:Hp; [|done].
  simpl in Ht. injection Ht as Ht. subst t. unfold closing.
  cbn [DrawControl2.handle]. unfold DrawControl2._onClick.
  cbn [DrawControl2.type DrawControl2.target String.eqb Ascii.eqb Bool.eqb
       negb].
  destruct (Feature.isClosed f) as [[]|] eqn:Hclosed; cbn [default].
  - rewrite (bool_decide_eq_false_2 (_ ∧ _)) by (by intros [? _]). done.
  - destruct (decide (mode props = DRAW_POLYGON ∧ i = O
                      ∧ (3 ≤ length (Feature.points f))%nat))
      as [(Hm & Hi & Hlen)|Hno].
    + rewrite (bool_decide_eq_true_2 (_ ∧ _)) by done.
      rewrite !bool_decide_eq_true_2 by (done || lia). simpl.
      unfold _onClickVertex. simpl. by apply closePath_closing.
    + rewrite (bool_decide_eq_false_2 (_ ∧ _)) by (by intros [_ ?]).
      repeat case_bool_decide; simpl; try done. exfalso. apply Hno.
      split_and!; (done || lia).
  - destruct (decide (mode props = DRAW_POLYGON ∧ i = O
                      ∧ (3 ≤ length (Feature.points f))%nat))
      as [(Hm & Hi & Hlen)|Hno].
    + rewrite (bool_decide_eq_true_2 (_ ∧ _)) by done.
      rewrite !bool_decide_eq_true_2 by (done || lia). simpl.
      unfold _onClickVertex. simpl. by apply closePath_closing.
    + rewrite (bool_decide_eq_false_2 (_ ∧ _)) by (by intros [_ ?]).
      repeat case_bool_decide; simpl; try done. exfalso. apply Hno.
      split_and!; (done || lia).
Qed.

End RenderedVertices.

(** ** Handlers: what the events keep *)

Section Safety.
Implicit Types (s : State) (props : Props) (viewport : Viewport).
Implicit Types (f : Feature.t) (r : ref).

Lemma selected_held s i :
  selected (selectedId s) (features s) = Some i →
  ∃ f, features s !! i = Some f.
Proof.
  intros Hsel. apply findIndex_Some in Hsel as (f & Hf & _). eauto.
Qed.

Lemma addPoint_returns props viewport x y r f s :
  deref r s = Returns (f, s, []) →
  ∃ s' calls,
    _addPoint props viewport x y r s = Returns (tt, s', calls) ∧
    features s' =
      (let f' := extended (unprojected viewport (x, y)) f in
       let fs := stored r f' (features s) in
       if commits props f' || known f' fs then fs else fs ++ [f']).
Proof.
  intros Hr. rewrite (addPoint_spec props viewport x y r f s Hr).
  change (snd (Feature.addPoint (unprojected viewport (x, y)) f))
    with (extended (unprojected viewport (x, y)) f).
  cbv zeta. destruct (commits props _); simpl.
  - by eexists _, _.
  - eexists _, _. split; [done|]. simpl. by destruct (known _ _).
Qed.

Lemma extended_closed_invariant pt f :
  closed_invariant f → closed_invariant (extended pt f).
Proof.
  unfold closed_invariant, extended. simpl. rewrite length_app.
  intros H Hc. specialize (H Hc). lia.
Qed.

Lemma replacePoint_closed_invariant index pt f :
  closed_invariant f →
  closed_invariant (snd (Feature.replacePoint index pt f)).
Proof.
  rewrite replacePoint_spec. case_bool_decide; [|done].
  unfold closed_invariant. simpl. by rewrite length_insert.
Qed.

Lemma closePath_closed_invariant f :
  closed_invariant f → closed_invariant (snd (Feature.closePath f)).
Proof.
  rewrite closePath_spec. case_bool_decide; [|done].
  by unfold closed_invariant.
Qed.

Lemma click_cases props viewport x y now s :
  ∃ s' calls,
    click props viewport x y now s = Returns (tt, s', calls) ∧
    (rings_closed s → rings_closed s').
Proof.
  unfold click. rewrite (bind_pure _ _ _ _ _ (getSelectedFeature_eq s)).
  unfold _addFeature.
  assert (∀ type,
    ∃ s' calls,
      _addPoint props viewport x y
        (fresh (Feature.new
           {| key_id := Some (numeric (of_Z now)); key_type := Some type;
              key_points := None; key_isClosed := None;
              rest := {[ "renderType" := type ]} |})) s
      = Returns (tt, s', calls) ∧ (rings_closed s → rings_closed s'))
    as Hnew.
  { intros type.
    set (f0 := Feature.new
           {| key_id := Some (numeric (of_Z now)); key_type := Some type;
              key_points := None; key_isClosed := None;
              rest := {[ "renderType" := type ]} |}).
    destruct (addPoint_returns props viewport x y (fresh f0) f0 s eq_refl)
      as (s' & calls & Hadd & Hfs).
    exists s', calls. split; [done|]. unfold rings_closed. rewrite Hfs.
    cbn [stored]. intros Hrings. destruct (_ || _); [done|].
    apply Forall_app. split; [done|]. apply Forall_singleton.
    by unfold closed_invariant. }
  assert (∀ i, findIndex
                 (λ f, strict_eq (Feature.id f) (selectedId s)) (features s)
               = Some i →
    ∃ s' calls,
      (f0 ← deref (held i);
       if default false (Feature.isClosed f0) then call (onSelect null)
       else _addPoint props viewport x y (held i)) s
      = Returns (tt, s', calls) ∧ (rings_closed s → rings_closed s'))
    as Hheld.
  { intros i Hi. destruct (selected_held s i Hi) as [f Hf].
    rewrite (bind_pure _ _ _ _ _ (deref_held s i f Hf)).
    destruct (default false (Feature.isClosed f)); [by eexists _, _|].
    destruct (addPoint_returns props viewport x y (held i) f s
      (deref_held s i f Hf)) as (s' & calls & Hadd & Hfs).
    exists s', calls. split; [done|]. unfold rings_closed. rewrite Hfs.
    cbn [stored]. intros Hrings.
    assert (closed_invariant (extended (unprojected viewport (x, y)) f))
      as Hext.
    { apply extended_closed_invariant.
      by eapply (Forall_lookup_1 _ _ _ _ Hrings). }
    destruct (_ || _).
    - by apply Forall_insert.
    - apply Forall_app. split; [by apply Forall_insert|].
      by apply Forall_singleton. }
  destruct (mode props); try (by eexists _, _); try apply Hnew.
  all: destruct (findIndex _ _) as [i|] eqn:Hi; [by apply Hheld|apply Hnew].
Qed.

Lemma handle_cases props viewport handler s :
  (closes handler = true →
   selected (selectedId s) (features s) = None →
   DrawControl.handle props viewport handler s = Throws) ∧
  (closes handler = false ∨
   is_Some (selected (selectedId s) (features s)) →
   ∃ s' calls,
     DrawControl.handle props viewport handler s = Returns (tt, s', calls) ∧
     (rings_closed s → rings_closed s')).
Proof.
  destruct handler as [evt now|evt|evt|evt|evt i|evt i op|evt f].
  - split; [done|]. intros _. simpl.
    unfold DrawControl._onBeforeClick.
    rewrite (bind_pure getState _ s s s eq_refl).
    destruct (didDrag s); simpl; [by eexists _, _|]. apply click_cases.
  - split; [done|]. intros _. simpl. unfold DrawControl._onMouseMove.
    rewrite onMouseMove_spec. eexists _, _. split; [done|].
    unfold rings_closed. simpl. intros Hrings.
    destruct (_ && _); [|done]. unfold dragged.
    destruct (selected _ _) as [k|]; [|done].
    destruct (features s !! k) as [f|] eqn:Hf; [|done].
    apply Forall_insert; [done|]. apply replacePoint_closed_invariant.
    by eapply (Forall_lookup_1 _ _ _ _ Hrings).
  - split; [done|]. intros _. by eexists _, _.
  - split; [done|]. intros _. cbn [DrawControl.handle].
    rewrite onMouseUp_spec. by eexists _, _.
  - split; [done|]. intros _. by eexists _, _.
  - destruct op; simpl.
    + split; [done|]. intros _. by eexists _, _.
    + unfold _onClickVertex. simpl. split.
      * intros _ Hsel. unfold _closePath.
        rewrite (bind_pure _ _ _ _ _ (getSelectedFeature_eq s)).
        unfold selected in Hsel. by rewrite Hsel.
      * intros [?|[k Hsel]]; [done|].
        destruct (selected_held s k Hsel) as [f Hf].
        rewrite (closePath_selected s k f Hsel Hf).
        eexists _, _. split; [done|]. unfold rings_closed. simpl.
        intros Hrings. apply Forall_insert; [done|].
        apply closePath_closed_invariant.
        by eapply (Forall_lookup_1 _ _ _ _ Hrings).
  - split; [done|]. intros _. simpl.
    unfold DrawControl._onClickFeature, mbind, M_bind, getState.
    destruct (_ || _); by eexists _, _.
Qed.

(** No event of the first class leaves a feature closed with fewer than
    three vertices, when none was before. *)
Theorem rings_stay_closed props viewport events s s' calls :
  rings_closed s →
  DrawControl.run props viewport events s = Returns (tt, s', calls) →
  rings_closed s'.
Proof.
  revert s calls. induction events as [|e events IH]; intros s calls Hrings.
  - by intros [= <- _].
  - simpl. intros H.
    apply bind_inv in H as ([] & s1 & c1 & c2 & He & Hrun & _).
    apply (IH s1 c2); [|done].
    unfold DrawControl._onEvent in He. destruct (_ || _).
    + by injection He as <- _.
    + destruct (handle_cases props viewport e s) as [Hthrow Hreturn].
      destruct (closes e) eqn:Hc.
      * destruct (selected (selectedId s) (features s)) eqn:Hsel.
        -- destruct Hreturn as (? & ? & Hret & Hkeep); [by eauto|].
           rewrite Hret in He. injection He as <- _. by apply Hkeep.
        -- rewrite Hthrow in He by done. done.
      * destruct Hreturn as (? & ? & Hret & Hkeep); [by left|].
        rewrite Hret in He. injection He as <- _. by apply Hkeep.
Qed.

End Safety.

(** ** The export of a feature without vertices *)

Section Placed.
Implicit Types (s : State) (props : Props) (viewport : Viewport).
Implicit Types (f : Feature.t) (r : ref).
















End Placed.

(** ** Hydration of the [features] prop *)

Section Batch.
Implicit Types (g : GeoJSON.feature) (gs : list GeoJSON.feature).
Implicit Types (o : option Feature.t) (os : list (option Feature.t)).

Lemma fromFeature_null g :
  Feature.fromFeature g = Returns None ↔ ∃ type, geometry g = Other type.
Proof.
  unfold Feature.fromFeature.
  destruct (geometry g) as [c|cs|[|ring rings]|type]; simpl;
    split; try done; try (by intros [? ?]); eauto.
Qed.

Lemma hydrate_Returns gs os :
  hydrate gs = Returns os ↔
  Forall2 (λ g o, Feature.fromFeature g = Returns o) gs os.
Proof.
  revert os. induction gs as [|g gs IH]; intros os; simpl.
  - split.
    + intros [= <-]. constructor.
    + intros H. by inversion H.
  - destruct (Feature.fromFeature g) as [o|] eqn:Hg.
    + destruct (hydrate gs) as [os'|] eqn:Hgs.
      * split.
        -- intros [= <-]. constructor; [done|]. by apply IH.
        -- intros H. inversion H as [|? o' ? os'' Ho Hos]; subst.
           apply IH in Hos. congruence.
      * split; [done|]. intros H.
        inversion H as [|? o' ? os'' Ho Hos]; subst.
        apply IH in Hos. done.
    + split; [done|]. intros H. inversion H; subst. congruence.
Qed.

(** The hydration of an array of records, when it returns: there is one
    entry a record, in order, and it is what [fromFeature] returns for the
    record.  Nothing is filtered out: a record of a kind that [fromFeature]
    does not know leaves [null] at its index, and a [null] at an index
    means a record of such a kind. *)
Theorem hydrate_batch gs os :
  hydrate gs = Returns os →
  length os = length gs ∧
  ∀ i g, gs !! i = Some g →
    (∃ o, os !! i = Some o ∧ Feature.fromFeature g = Returns o) ∧
    (∀ type, geometry g = Other type →
       type ≠ "Point" → type ≠ "LineString" → type ≠ "Polygon" →
       os !! i = Some None) ∧
    (os !! i = Some None → ∃ type, geometry g = Other type).
Proof.
  intros Hos. apply hydrate_Returns in Hos. split.
  - symmetry. by eapply Forall2_length.
  - intros i g Hg.
    destruct (Forall2_lookup_l _ _ _ _ _ Hos Hg) as (o & Ho & Hfrom).
    split_and!.
    + by eauto.
    + intros type Htype _ _ _. rewrite Ho. f_equal.
      assert (Feature.fromFeature g = Returns None) as Hnull
        by (apply fromFeature_null; eauto).
      congruence.
    + intros Hi. apply fromFeature_null. congruence.
Qed.

(** The loop through the host: the features that [_update] exports,
    hydrated again.  When the helpers take every export, the records are
    those that [toFeature] makes, and their hydration returns and leaves no
    [null]; there are as many features as before, each with its id, its
    other properties and its vertices, a feature without vertices
    excepted, which comes back with one vertex, [undefined].  The [type]
    that comes back is the kind of the export. *)
Theorem commit_then_hydrate helpers (fs : list Feature.t) gs :
  exports helpers fs = Returns gs →
  gs = Feature.toFeature <$> fs ∧
  ∃ fs',
    hydrate gs = Returns (Some <$> fs') ∧
    Forall2 rehydrated fs fs'.
Proof.
  revert gs. induction fs as [|f fs IH]; intros gs; simpl.
  - intros [= <-]. split; [done|]. exists []. split; [done|constructor].
  - unfold Feature.toFeature_with, checked.
    destruct (accepts helpers _); [|done].
    destruct (exports helpers fs) as [gs'|]; [|done]. intros [= <-].
    destruct (IH gs' eq_refl) as (-> & fs' & Hfs & Hall).
    split; [done|].
    destruct (round_trip f) as (f' & Hf & Hre).
    exists (f' :: fs'). split; [|by constructor].
    rewrite fmap_cons. cbn [hydrate]. by rewrite Hf, Hfs.
Qed.

End Batch.

(** ** The further statements at concrete inputs *)

(** A closed triangle, through helpers that check, and back. *)
Lemma export_then_hydrate_witness :
  Feature.toFeature_with sample_helpers (sample triangle (Some true))
  = Returns (Feature.toFeature (sample triangle (Some true))) ∧
  ∃ f',
    Feature.fromFeature (Feature.toFeature (sample triangle (Some true)))
    = Returns (Some f') ∧
    Feature.points f' = triangle ∧
    Feature.isClosed f' = Some true.
Proof.
  split; [reflexivity|].
  destruct (export_then_hydrate sample_helpers
              (sample triangle (Some true)) _ eq_refl)
    as (_ & f' & Hf' & _ & _ & _ & Hps & Hc).
  exists f'. split; [exact Hf'|]. split; [exact Hps | exact Hc].
Defined.

(** A [Point] and a record of a kind that [fromFeature] does not know. *)
Lemma hydrate_batch_witness :
  ∃ os,
    hydrate [point (at_ 1 2) (others ∅);
             {| geometry := Other "MultiPoint"; properties := others ∅ |}]
    = Returns os ∧
    length os = 2%nat ∧
    os !! 1%nat = Some None.
Proof.
  eexists. split; [reflexivity|].
  destruct (hydrate_batch
              [point (at_ 1 2) (others ∅);
               {| geometry := Other "MultiPoint"; properties := others ∅ |}]
              _ eq_refl) as [Hlen Hat].
  split; [exact Hlen|].
  destruct (Hat 1%nat _ eq_refl) as (_ & Hnull & _).
  apply (Hnull "MultiPoint"); [reflexivity|discriminate..].
Defined.

(** A closed triangle and an open line, exported and hydrated again. *)
Lemma commit_then_hydrate_witness :
  exports sample_helpers
    [sample triangle (Some true); sample [at_ 0 0; at_ 1 1] None]
  = Returns (Feature.toFeature
               <$> [sample triangle (Some true);
                    sample [at_ 0 0; at_ 1 1] None]) ∧
  ∃ fs',
    hydrate (Feature.toFeature
               <$> [sample triangle (Some true);
                    sample [at_ 0 0; at_ 1 1] None])
    = Returns (Some <$> fs') ∧
    Forall2 rehydrated
      [sample triangle (Some true); sample [at_ 0 0; at_ 1 1] None] fs'.
Proof.
  split; [reflexivity|].
  destruct (commit_then_hydrate sample_helpers
              [sample triangle (Some true); sample [at_ 0 0; at_ 1 1] None]
              _ eq_refl) as (_ & fs' & Hfs' & Hall).
  exists fs'. split; [exact Hfs' | exact Hall].
Defined.

(** A [LineString] of one position comes back as a [Point]. *)
Lemma lineString_hydrated_exported_witness :
  geometry (lineString [at_ 3 4] (others ∅)) = LineString [at_ 3 4] ∧
  key_points (properties (lineString [at_ 3 4] (others ∅))) = None ∧
  default None (key_isClosed (properties (lineString [at_ 3 4] (others ∅))))
  ≠ Some true ∧
  ∃ f,
    Feature.fromFeature (lineString [at_ 3 4] (others ∅)) = Returns (Some f) ∧
    geometry (Feature.toFeature f) = Point (at_ 3 4).
Proof.
  assert (default None
            (key_isClosed (properties (lineString [at_ 3 4] (others ∅))))
          ≠ Some true) as Hopen by (simpl; discriminate).
  split; [reflexivity|]. split; [reflexivity|]. split; [exact Hopen|].
  exact (lineString_hydrated_exported (lineString [at_ 3 4] (others ∅))
           [at_ 3 4] eq_refl eq_refl Hopen).
Defined.

(** A square with a hole comes back without the hole. *)
Lemma polygon_hydrated_exported_witness :
  geometry
    (polygon [[at_ 0 0; at_ 4 0; at_ 4 4; at_ 0 0];
              [at_ 1 1; at_ 2 1; at_ 2 2; at_ 1 1]] (others ∅))
  = Polygon ([at_ 0 0; at_ 4 0; at_ 4 4; at_ 0 0]
               :: [[at_ 1 1; at_ 2 1; at_ 2 2; at_ 1 1]]) ∧
  ∃ f,
    Feature.fromFeature
      (polygon [[at_ 0 0; at_ 4 0; at_ 4 4; at_ 0 0];
                [at_ 1 1; at_ 2 1; at_ 2 2; at_ 1 1]] (others ∅))
    = Returns (Some f) ∧
    geometry (Feature.toFeature f)
    = Polygon [[at_ 0 0; at_ 4 0; at_ 4 4; at_ 0 0]].
Proof.
  split; [reflexivity|].
  exact (polygon_hydrated_exported
           (polygon [[at_ 0 0; at_ 4 0; at_ 4 4; at_ 0 0];
                     [at_ 1 1; at_ 2 1; at_ 2 2; at_ 1 1]] (others ∅))
           [at_ 0 0; at_ 4 0; at_ 4 4; at_ 0 0]
           [[at_ 1 1; at_ 2 1; at_ 2 2; at_ 1 1]] eq_refl eq_refl eq_refl).
Defined.

(** A closed triangle without its second vertex. *)
Lemma triangle_opens_witness :
  length (Feature.points (sample triangle (Some true))) = 3%nat ∧
  in_range 1 (sample triangle (Some true)) ∧
  geometry
    (Feature.toFeature
       (snd (Feature.removePoint 1 (sample triangle (Some true)))))
  = LineString [at_ 0 0; at_ 1 1] ∧
  fst (Feature.closePath
         (snd (Feature.removePoint 1 (sample triangle (Some true)))))
  = false.
Proof.
  assert (in_range 1 (sample triangle (Some true))) as Hr
    by (unfold in_range; simpl; lia).
  split; [reflexivity|]. split; [exact Hr|].
  destruct (triangle_opens (sample triangle (Some true)) 1 eq_refl Hr)
    as (_ & _ & Hline & Hclose).
  split; [exact Hline|]. rewrite Hclose. reflexivity.
Defined.

(** A third click on an open feature of two vertices, in [DRAW_POLYGON]
    mode. *)
Lemma click_on_selection_witness :
  (mode polygon_props = DRAW_PATH ∨ mode polygon_props = DRAW_POLYGON) ∧
  selected (numeric (of_Z 1)) [sample [at_ 0 0; at_ 1 0] None] = Some O ∧
  click polygon_props sample_viewport 1 1 9
    (sample_state [sample [at_ 0 0; at_ 1 0] None] (numeric (of_Z 1)))
  = Returns (tt,
      sample_state [sample triangle None] (numeric (of_Z 1)), []).
Proof.
  assert (mode polygon_props = DRAW_PATH ∨ mode polygon_props = DRAW_POLYGON)
    as Hmode by (right; reflexivity).
  split; [exact Hmode|]. split; [reflexivity|].
  destruct (click_on_selection polygon_props sample_viewport 1 1 9
              (sample_state [sample [at_ 0 0; at_ 1 0] None]
                 (numeric (of_Z 1)))
              O (sample [at_ 0 0; at_ 1 0] None) Hmode eq_refl eq_refl)
    as [_ Hopen].
  apply Hopen. discriminate.
Defined.

(** A first click in [DRAW_PATH] mode. *)
Lemma click_starts_feature_witness :
  (mode path_props = DRAW_PATH ∨ mode path_props = DRAW_POLYGON) ∧
  selected (selectedId (sample_state [] null))
    (features (sample_state [] null)) = None ∧
  ∃ s',
    click path_props sample_viewport 0 0 5 (sample_state [] null)
    = Returns (tt, s', []) ∧
    selectedId s' = numeric (of_Z 5) ∧
    features s' = [started sample_viewport (text "LineString") (0, 0) 5].
Proof.
  assert (mode path_props = DRAW_PATH ∨ mode path_props = DRAW_POLYGON)
    as Hmode by (left; reflexivity).
  split; [exact Hmode|]. split; [reflexivity|].
  destruct (click_starts_feature path_props sample_viewport 0 0 5
              (sample_state [] null) Hmode eq_refl)
    as (s' & Hclick & Hsel & _ & Hfresh & _).
  exists s'. split; [exact Hclick|]. split; [exact Hsel|].
  apply Hfresh. intros g Hg. destruct (not_elem_of_nil g Hg).
Defined.

(** The scenario of the line: clicks at (0,0) and (1,1). *)
Lemma line_in_two_clicks_witness :
  mode path_props = DRAW_PATH ∧
  didDrag (sample_state [] null) = false ∧
  ∃ s',
    DrawControl.run path_props sample_viewport
      [DrawControl.onBeforeClick (sample_event 0 0) 1000;
       DrawControl.onBeforeClick (sample_event 1 1) 1001]
      (sample_state [] null)
    = Returns (tt, s',
        [onUpdate
           [lineString [at_ 0 0; at_ 1 1]
              {| key_id := Some (numeric (of_Z 1000)); key_type := None;
                 key_points := None; key_isClosed := None;
                 rest := {[ "renderType" := text "LineString" ]} |}];
         onSelect (numeric (of_Z 1000))]).
Proof.
  split; [reflexivity|]. split; [reflexivity|].
  destruct (line_in_two_clicks path_props sample_viewport
              (sample_state [] null) (sample_event 0 0) 1000
              (sample_event 1 1) 1001 eq_refl eq_refl eq_refl
              (λ g Hg, match not_elem_of_nil g Hg with end))
    as (s' & Hrun & _).
  exists s'. exact Hrun.
Defined.

(** The scenario of the polygon: clicks at (0,0), (1,0) and (1,1), and a
    press on the first vertex. *)
Lemma polygon_in_clicks_and_a_press_witness :
  mode polygon_props = DRAW_POLYGON ∧
  (2 ≤ length [(sample_event 1 0, 2); (sample_event 1 1, 3)])%nat ∧
  ∃ s1 g s2,
    DrawControl.run polygon_props sample_viewport
      [DrawControl.onBeforeClick (sample_event 0 0) 1;
       DrawControl.onBeforeClick (sample_event 1 0) 2;
       DrawControl.onBeforeClick (sample_event 1 1) 3]
      (sample_state [] null)
    = Returns (tt, s1, []) ∧
    DrawControl._renderCurrent polygon_props
      {| Feature.id := numeric (of_Z 1); Feature.type := text "Polygon";
         Feature.points := triangle; Feature.isClosed := None;
         Feature.otherProps := {[ "renderType" := text "Polygon" ]} |} !! O
    = Some g ∧
    DrawControl._onEvent polygon_props sample_viewport
      (DrawControl.group_onMouseDown g (sample_event 0 0)) s1
    = Returns (tt, s2,
        [onUpdate
           [polygon [[at_ 0 0; at_ 1 0; at_ 1 1; at_ 0 0]]
              {| key_id := Some (numeric (of_Z 1)); key_type := None;
                 key_points := None; key_isClosed := Some (Some true);
                 rest := {[ "renderType" := text "Polygon" ]} |}];
         onSelect (numeric (of_Z 1))]).
Proof.
  split; [reflexivity|]. split; [simpl; lia|].
  destruct (polygon_in_clicks_and_a_press polygon_props sample_viewport
              (sample_state [] null) (sample_event 0 0) 1
              [(sample_event 1 0, 2); (sample_event 1 1, 3)]
              (sample_event 0 0) eq_refl eq_refl eq_refl
              (λ g Hg, match not_elem_of_nil g Hg with end)
              ltac:(simpl; lia))
    as (s1 & g & s2 & Hrun & _ & Hrender & Hpress & _).
  exists s1, g, s2. split; [exact Hrun|]. split; [exact Hrender|exact Hpress].
Defined.

(** A drag of the map in the second class. *)
Lemma second_class_idle_witness :
  forallb idle
    [DrawControl2.onMouseDown
       (sample_event2_on "pointerdown" DrawControl2.canvas 0 0);
     DrawControl2.onMouseMove
       (sample_event2_on "pointermove" DrawControl2.canvas 9 9);
     DrawControl2.onMouseUp sample_event2] = true ∧
  draggingVertex (sample_state [] null) < 0 ∧
  DrawControl2.run sample_props sample_viewport
    [DrawControl2.onMouseDown
       (sample_event2_on "pointerdown" DrawControl2.canvas 0 0);
     DrawControl2.onMouseMove
       (sample_event2_on "pointermove" DrawControl2.canvas 9 9);
     DrawControl2.onMouseUp sample_event2]
    (sample_state [] null)
  = Returns (tt, sample_state [] null, []).
Proof.
  split; [reflexivity|]. split; [simpl; lia|].
  apply second_class_idle; [reflexivity | reflexivity | reflexivity |].
  simpl. lia.
Defined.

(** Vertex 1 of a selected triangle, dragged from (1,0) to (2,2), in the
    second class. *)
Lemma second_class_vertex_drag_witness :
  gate_open2 polygon_props ∧
  0 ≤ 1 ∧
  ∃ s1 s2,
    DrawControl2.run polygon_props sample_viewport
      [DrawControl2.onMouseDown
         (sample_event2_on "pointerdown"
            (DrawControl2.vertexElement 1 SET) 1 0);
       DrawControl2.onMouseMove
         (sample_event2_on "pointermove" DrawControl2.canvas 2 2)]
      (sample_state [sample triangle (Some true)] (numeric (of_Z 1)))
    = Returns (tt, s1, []) ∧
    didDrag s1 = false ∧
    features s1 = [sample [at_ 0 0; at_ 2 2; at_ 1 1] (Some true)] ∧
    DrawControl2._onEvent polygon_props sample_viewport
      (DrawControl2.onMouseUp sample_event2) s1
    = Returns (tt, s2, [onUpdate (Feature.toFeature <$> features s1)]).
Proof.
  assert (gate_open2 polygon_props) as Hgate by (split; discriminate).
  split; [exact Hgate|]. split; [lia|].
  destruct (second_class_vertex_drag polygon_props sample_viewport
              (sample_state [sample triangle (Some true)] (numeric (of_Z 1)))
              1 SET
              (sample_event2_on "pointerdown"
                 (DrawControl2.vertexElement 1 SET) 1 0)
              [sample_event2_on "pointermove" DrawControl2.canvas 2 2]
              sample_event2 Hgate ltac:(lia) eq_refl)
    as (s1 & s2 & Hrun & Hdd & Hf & Hup & _).
  exists s1, s2. split; [exact Hrun|]. split; [exact Hdd|].
  split; [exact Hf|exact Hup].
Defined.

(** A press on the first vertex of an open triangle, in [DRAW_POLYGON]
    mode. *)
Lemma vertex_press_witness :
  gate_open polygon_props ∧
  ∃ g s',
    DrawControl._renderCurrent polygon_props (sample triangle None) !! O
    = Some g ∧
    DrawControl._onEvent polygon_props sample_viewport
      (DrawControl.group_onMouseDown g (sample_event 0 0))
      (sample_state [sample triangle None] (numeric (of_Z 1)))
    = Returns (tt, s',
        [onUpdate [Feature.toFeature (sample triangle (Some true))];
         onSelect (numeric (of_Z 1))]).
Proof.
  assert (gate_open polygon_props) as Hgate by (split; discriminate).
  split; [exact Hgate|].
  eexists _, _. split; [reflexivity|].
  exact (vertex_press polygon_props sample_viewport
           (sample_state [sample triangle None] (numeric (of_Z 1)))
           O (sample triangle None) O _ (sample_event 0 0)
           Hgate eq_refl eq_refl eq_refl).
Defined.

(** The same click in the second class. *)
Lemma vertex_click2_witness :
  gate_open2 polygon_props ∧
  ∃ t s',
    DrawControl2._renderCurrent polygon_props (sample triangle None) !! O
    = Some t ∧
    DrawControl2._onEvent polygon_props sample_viewport
      (DrawControl2.onClick
         {| DrawControl2.type := "anyclick"; DrawControl2.target := t;
            DrawControl2.offsetCenter := (0, 0) |} 9)
      (sample_state [sample triangle None] (numeric (of_Z 1)))
    = Returns (tt, s',
        [onUpdate [Feature.toFeature (sample triangle (Some true))];
         onSelect (numeric (of_Z 1))]).
Proof.
  assert (gate_open2 polygon_props) as Hgate by (split; discriminate).
  split; [exact Hgate|].
  eexists _, _. split; [reflexivity|].
  exact (vertex_click2 polygon_props sample_viewport
           (sample_state [sample triangle None] (numeric (of_Z 1)))
           O (sample triangle None) O _ (0, 0) 9
           Hgate eq_refl eq_refl eq_refl).
Defined.

(** A closed triangle, its second vertex dragged and released. *)
Lemma rings_stay_closed_witness :
  rings_closed
    (sample_state [sample triangle (Some true)] (numeric (of_Z 1))) ∧
  ∃ s' calls,
    DrawControl.run polygon_props sample_viewport
      [DrawControl.onDragVertex (sample_event 1 0) 1;
       DrawControl.onMouseMove (sample_event 2 2);
       DrawControl.onMouseUp (sample_event 2 2)]
      (sample_state [sample triangle (Some true)] (numeric (of_Z 1)))
    = Returns (tt, s', calls) ∧
    rings_closed s'.
Proof.
  assert (rings_closed
            (sample_state [sample triangle (Some true)] (numeric (of_Z 1))))
    as Hrings.
  { apply Forall_singleton. intros _. simpl. lia. }
  split; [exact Hrings|].
  eexists _, _. split; [reflexivity|].
  exact (rings_stay_closed polygon_props sample_viewport
           [DrawControl.onDragVertex (sample_event 1 0) 1;
            DrawControl.onMouseMove (sample_event 2 2);
            DrawControl.onMouseUp (sample_event 2 2)]
           (sample_state [sample triangle (Some true)] (numeric (of_Z 1)))
           _ _ Hrings eq_refl).
Defined.
